(** * Transcribe-Audio-on-Cloudflare-Workers: the AssemblyAI client and the
      worker's routes, embedded from [src/assemblyai.ts] and [src/worker.ts]. *)

From stdpp Require Import gmap strings list pretty.
From Stdlib Require Import ZArith Ascii String.

#[local] Set Warnings "-register-all".

Local Open Scope Z_scope.
Local Open Scope string_scope.

(** ** JavaScript values that come out of [JSON.parse] *)

(** A number is kept as its canonical rendering ([Number::toString]), which
    identifies the double up to the sign of zero; the program never does
    arithmetic on a parsed number. *)
Inductive json : Type :=
| JNull
| JBool (b : bool)
| JNum (repr : string)
| JStr (s : string)
| JArr (items : list json)
| JObj (fields : gmap string json).

(** A JavaScript value the program handles: [None] is [undefined]. *)
Definition value : Type := option json.
Abbreviation undefined := (@None json).

(** Exceptions the program can see. [Error] is what [new Error(msg)] builds;
    the others are raised by the runtime. *)
Inductive type_error : Type :=
| InOperandNotObject   (* right-hand side of [in] is a primitive *)
| PropertyOfNullish    (* property read or call on [null] / [undefined] *)
| NotAFunction         (* call of a property that is not callable *)
| BodyUsed             (* body of a Response read a second time *)
| NoPrimitiveValue.    (* string conversion of an object that has none *)

Inductive exn : Type :=
| Error (message : string)
| TypeError (why : type_error)
| SyntaxError          (* [response.json()] on text that is not JSON *)
| RangeError.          (* [Response.redirect] with a status that is no redirect *)

(** [ToString] on parsed values; [None] when the conversion throws a
    [TypeError]. A parsed object is converted by the [toString] it finds: its
    own property of that name, which is parsed data and so not callable, or
    else [Object.prototype.toString]. With an own [toString] neither it nor
    [valueOf] gives a primitive and the conversion throws. An array is
    converted by [join], which converts its elements ([null] as the empty
    string). *)
Fixpoint ToString (v : json) : option string :=
  match v with
  | JNull => Some "null"
  | JBool true => Some "true"
  | JBool false => Some "false"
  | JNum repr => Some repr
  | JStr s => Some s
  | JArr items =>
      option_map (String.concat ",")
        ((fix join (l : list json) : option (list string) :=
            match l with
            | [] => Some []
            | x :: l' =>
                match match x with
                      | JNull => Some EmptyString
                      | _ => ToString x
                      end, join l' with
                | Some s, Some ss => Some (s :: ss)
                | _, _ => None
                end
            end) items)
  | JObj fields =>
      if bool_decide (is_Some (fields !! "toString")) then None
      else Some "[object Object]"
  end.

(** The exception that [throw new Error(x)] raises for a parsed value [x]:
    the error with the string conversion of [x] as its message, or the
    [TypeError] of a conversion that fails. *)
Definition thrown (x : json) : exn :=
  match ToString x with
  | Some s => Error s
  | None => TypeError NoPrimitiveValue
  end.

(** [a === 'lit'] for a string literal. *)
Definition strict_eq_str (a : value) (lit : string) : bool :=
  match a with
  | Some (JStr s) => bool_decide (s = lit)
  | _ => false
  end.

(** ** The fetch API as the client uses it *)

Record File : Type := { file_name : string; file_bytes : string }.

Inductive BodyInit : Type :=
| BodyStream (f : File)       (* [file.stream()] *)
| BodyJSON (v : json)         (* the text [JSON.stringify] gives for [v] *)
| BodyString (s : string)
| BodyValue (v : json).       (* a value without string conversion, as given *)

Record RequestInit : Type := {
  rq_url : string;
  rq_method : string;
  rq_headers : list (string * string);
  rq_body : option BodyInit
}.

(** ASCII lower-casing of header names, as the [Headers] class does. *)
Definition lower_ascii (c : ascii) : ascii :=
  let n := N_of_ascii c in
  if ((65 <=? n) && (n <=? 90))%N then ascii_of_N (n + 32) else c.

Fixpoint lower (s : string) : string :=
  match s with
  | EmptyString => EmptyString
  | String c s' => String (lower_ascii c) (lower s')
  end.

Definition Headers_init (l : list (string * string)) : gmap string string :=
  fold_left (fun m kv => <[lower (fst kv) := snd kv]> m) l ∅.

Definition Headers_get (h : gmap string string) (name : string) : option string :=
  h !! lower name.

(** What the remote service answers to one request. The payload is carried
    with the two views the Body mixin offers: its text, and what [JSON.parse]
    makes of that text ([None] when it is not JSON). *)
Record Reply : Type := {
  status : Z;
  statusText : string;
  headers : gmap string string;
  body_text : string;
  body_json : option json
}.

(** The Response object [fetch] resolves to: the reply, and whether its body
    has been read. *)
Record Response : Type := {
  reply :> Reply;
  bodyUsed : bool
}.

Definition consume (r : Response) : Response :=
  {| reply := reply r; bodyUsed := true |}.

(** ** The world and the monad of asynchronous computations *)

Inductive event : Type :=
| Fetch (rq : RequestInit)
| SetTimeout (ms : Z).

(** [network]: the replies the remote service gives to the next fetches, in
    order. [trace]: what the program has done so far. *)
Record World : Type := {
  network : list Reply;
  trace : list event
}.

(** The state of a promise once the scripted replies are used up. *)
Inductive outcome (A : Type) : Type :=
| Returned (a : A)
| Raised (e : exn)
| Awaiting.            (* suspended on a fetch that has no answer yet *)
Arguments Returned {A} a.
Arguments Raised {A} e.
Arguments Awaiting {A}.

Definition M (A : Type) : Type := World -> outcome A * World.

Definition ret {A} (a : A) : M A := fun w => (Returned a, w).
Definition throw {A} (e : exn) : M A := fun w => (Raised e, w).
Definition bind {A B} (m : M A) (k : A -> M B) : M B :=
  fun w =>
    match m w with
    | (Returned a, w') => k a w'
    | (Raised e, w') => (Raised e, w')
    | (Awaiting, w') => (Awaiting, w')
    end.

Declare Scope js_scope.
Delimit Scope js_scope with js.
Notation "x <- m ;; k" := (bind m (fun x => k))
  (at level 100, m at next level, right associativity) : js_scope.
Notation "m ;;; k" := (bind m (fun _ => k))
  (at level 100, right associativity) : js_scope.
Local Open Scope js_scope.

Definition log (e : event) (w : World) : World :=
  {| network := network w; trace := trace w ++ [e] |}.

(** [await fetch(url, init)]. *)
Definition fetch (rq : RequestInit) : M Response :=
  fun w =>
    match network w with
    | [] => (Awaiting, log (Fetch rq) w)
    | r :: rest =>
        (Returned {| reply := r; bodyUsed := false |},
         {| network := rest; trace := trace w ++ [Fetch rq] |})
    end.

(** [await new Promise((resolve) => setTimeout(resolve, ms))]. *)
Definition sleep (ms : Z) : M unit :=
  fun w => (Returned tt, log (SetTimeout ms) w).

(** [await response.json()] and [await response.text()]: each reads the body,
    and a body can be read once. The response object after the call is
    returned with the result. *)
Definition Response_json (r : Response) : M (json * Response) :=
  if bodyUsed r then throw (TypeError BodyUsed)
  else match body_json r with
       | Some v => ret (v, consume r)
       | None => throw SyntaxError
       end.

Definition Response_text (r : Response) : M (string * Response) :=
  if bodyUsed r then throw (TypeError BodyUsed)
  else ret (body_text r, consume r).

(** [ToString] as a step of the program. *)
Definition string_of (x : json) : M string :=
  match ToString x with
  | Some s => ret s
  | None => throw (TypeError NoPrimitiveValue)
  end.

(** A template-literal hole [${v}]. *)
Definition template (v : value) : M string :=
  match v with
  | None => ret "undefined"
  | Some x => string_of x
  end.

(** [new Error(v)]: the message is [ToString v] unless [v] is [undefined]. *)
Definition new_Error (v : value) : M exn :=
  match v with
  | None => ret (Error EmptyString)
  | Some x => message <- string_of x;; ret (Error message)
  end.

(** ** Property access on parsed values

    The names this program reads ([error], [upload_url], [id], [text],
    [status]) are neither array indices nor properties of [Object.prototype],
    [Array.prototype] or of the primitive wrappers, so [in] and a property
    read come down to the own properties of an object. *)
Definition op_in (k : string) (v : json) : M bool :=
  match v with
  | JObj fields => ret (bool_decide (is_Some (fields !! k)))
  | JArr _ => ret false
  | _ => throw (TypeError InOperandNotObject)
  end.

Definition get (v : json) (k : string) : M value :=
  match v with
  | JObj fields => ret (fields !! k)
  | JNull => throw (TypeError PropertyOfNullish)
  | _ => ret undefined
  end.

(** ** The client, [src/assemblyai.ts] *)

Module AssemblyAiClient.

Definition baseUrl : string := "https://api.assemblyai.com/v2".

Record CreateTranscriptParams : Type := {
  audio_url : value;
  webhook_url : value
}.

(** The object [JSON.stringify(params)] serialises: a property whose value
    is [undefined] is left out. *)
Definition params_json (p : CreateTranscriptParams) : json :=
  let with_audio :=
    match audio_url p with
    | Some a => <["audio_url" := a]> (∅ : gmap string json)
    | None => ∅
    end in
  JObj (match webhook_url p with
        | Some h => <["webhook_url" := h]> with_audio
        | None => with_audio
        end).

(** [file.stream()] on what [formData.get('file')] gave: a [File], a string
    or [null]. *)
Inductive FormDataEntryValue : Type :=
| EntryFile (f : File)
| EntryString (s : string).

Definition stream (file : option FormDataEntryValue) : M BodyInit :=
  match file with
  | Some (EntryFile f) => ret (BodyStream f)
  | Some (EntryString _) => throw (TypeError NotAFunction)
  | None => throw (TypeError PropertyOfNullish)
  end.

Definition throwIfError (body : json) : M unit :=
  has_error <- op_in "error" body;;
  if has_error : bool then
    e <- get body "error";;
    err <- new_Error e;;
    throw err
  else ret tt.

Definition uploadFile (apiKey : string) (file : option FormDataEntryValue)
  : M value :=
  stream_body <- stream file;;
  response <- fetch {| rq_url := baseUrl ++ "/upload";
                       rq_method := "POST";
                       rq_headers := [("authorization", apiKey)];
                       rq_body := Some stream_body |};;
  parsed <- Response_json response;;
  let json := fst parsed in
  throwIfError json;;;
  get json "upload_url".


Definition createTranscript (apiKey : string) (params : CreateTranscriptParams)
  : M json :=
  response <- fetch {| rq_url := baseUrl ++ "/transcript";
                       rq_method := "POST";
                       rq_headers := [("authorization", apiKey);
                                      ("Content-Type", "application/json")];
                       rq_body := Some (BodyJSON (params_json params)) |};;
  parsed <- Response_json response;;
  let transcript := fst parsed in
  throwIfError transcript;;;
  ret transcript.

Definition getTranscript (apiKey : string) (id : string) : M json :=
  response <- fetch {| rq_url := baseUrl ++ "/transcript/" ++ id;
                       rq_method := "GET";
                       rq_headers := [("authorization", apiKey)];
                       rq_body := None |};;
  parsed <- Response_json response;;
  let transcript := fst parsed in
  throwIfError transcript;;;
  ret transcript.

(** What one turn of the [while (true)] loop decides. *)
Inductive turn : Type :=
| Return (transcript : json)
| Continue.

(** The body of the loop of [waitForTranscript]. *)
Definition poll_once (apiKey : string) (pollingEndpoint : string) : M turn :=
  pollingResponse <- fetch {| rq_url := pollingEndpoint;
                              rq_method := "GET";
                              rq_headers := [("authorization", apiKey)];
                              rq_body := None |};;
  parsed <- Response_json pollingResponse;;
  let transcript := fst parsed in
  throwIfError transcript;;;
  st <- get transcript "status";;
  if strict_eq_str st "queued" || strict_eq_str st "processing" then
    sleep 3000;;;
    ret Continue
  else if strict_eq_str st "completed" then
    ret (Return transcript)
  else ret Continue.

(** [while (true) { ... }], unrolled [fuel] times. Every turn starts with a
    fetch, so a promise that has not settled after as many turns as the
    network has answers is suspended on the next fetch. *)
Fixpoint poll (fuel : nat) (apiKey : string) (pollingEndpoint : string)
  : M json :=
  match fuel with
  | O => fun w => (Awaiting, w)
  | S fuel' =>
      t <- poll_once apiKey pollingEndpoint;;
      match t with
      | Return transcript => ret transcript
      | Continue => poll fuel' apiKey pollingEndpoint
      end
  end.

Definition waitForTranscript (apiKey : string) (id : string) : M json :=
  let pollingEndpoint := baseUrl ++ "/transcript/" ++ id in
  fun w => poll (S (List.length (network w))) apiKey pollingEndpoint w.

Inductive subtitleFormat : Type := srt | vtt.

Definition format_name (f : subtitleFormat) : string :=
  match f with srt => "srt" | vtt => "vtt" end.

(** [response.headers.get('content-type')?.startsWith('application/json')],
    as the condition of an [if]. *)
Definition is_json_content (response : Reply) : bool :=
  match Headers_get (headers response) "content-type" with
  | Some ct => String.prefix "application/json" ct
  | None => false
  end.

Definition getSubtitles (apiKey : string) (id : string) (fmt : subtitleFormat)
  : M string :=
  response <- fetch {| rq_url := baseUrl ++ "/transcript/" ++ id ++ "/"
                                   ++ format_name fmt;
                       rq_method := "GET";
                       rq_headers := [("authorization", apiKey)];
                       rq_body := None |};;
  response <-
    (if bool_decide (status response ≠ 200) then
       if is_json_content response then
         parsed <- Response_json response;;
         let errorBody := fst parsed in
         throwIfError errorBody;;;
         ret (snd parsed)
       else
         throw (Error ("Get Subtitle request returned status "
                       ++ pretty (status response) ++ " "
                       ++ statusText response))
     else ret response);;
  read <- Response_text response;;
  let subtitles := fst read in
  ret subtitles.

End AssemblyAiClient.

(** ** Responses the worker builds *)

(** [new URL(reference, base).toString()]. Parsing and serialising a URL is
    the runtime's work; the serialised URL is kept as the pair it is computed
    from. *)
Record URL : Type := { url_reference : string; url_base : string }.

Inductive header_value : Type :=
| HString (s : string)
| HHref (u : URL).

(** A Response the worker constructs and hands to the runtime. [None] is the
    null body. *)
Record HttpResponse : Type := {
  http_status : Z;
  http_headers : gmap string header_value;
  http_body : option BodyInit
}.

Definition HttpHeaders_init (l : list (string * header_value))
  : gmap string header_value :=
  fold_left (fun m kv => <[lower (fst kv) := snd kv]> m) l ∅.

Definition HttpHeaders_get (h : gmap string header_value) (name : string)
  : option header_value :=
  h !! lower name.

(** [Response.redirect(url, status)]. *)
Definition Response_redirect (url : URL) (code : Z) : M HttpResponse :=
  if bool_decide (code ∈ [301; 302; 303; 307; 308]) then
    ret {| http_status := code;
           http_headers := HttpHeaders_init [("Location", HHref url)];
           http_body := None |}
  else throw RangeError.

(** What a route handler can resolve to. *)
Inductive handled : Type :=
| IsResponse (r : HttpResponse)
| IsValue (v : value).

(** ** itty-router's helpers *)

Module itty.

(** [new Response(body, ...)] on a value: no body for [undefined] and [null],
    the string conversion otherwise; a value that has none is kept as
    given. *)
Definition body_of (v : value) : option BodyInit :=
  match v with
  | None | Some JNull => None
  | Some x => match ToString x with
              | Some s => Some (BodyString s)
              | None => Some (BodyValue x)
              end
  end.

(** Modelled from the spec: itty-router's [html] is not in the repository;
    "returns a static HTML file-upload form", status 200. *)
Definition html (body : string) : HttpResponse :=
  {| http_status := 200;
     http_headers := HttpHeaders_init [("content-type", HString "text/html")];
     http_body := Some (BodyString body) |}.

(** Modelled from the spec: itty-router's [text] is not in the repository;
    "responds with ... as plain text" (200 text/plain), with the headers of
    the options added. *)
Definition text (body : value) (options : list (string * header_value))
  : HttpResponse :=
  {| http_status := 200;
     http_headers :=
       HttpHeaders_init
         (("content-type", HString "text/plain; charset=utf-8") :: options);
     http_body := body_of body |}.

(** Modelled from the spec: itty-router's [json] is not in the repository;
    "any successful router result that isn't already a proper response is
    serialized as JSON". The body of [undefined] is empty, as
    [JSON.stringify] gives no text for it. *)
Definition json (h : handled) : HttpResponse :=
  match h with
  | IsResponse r => r
  | IsValue v =>
      {| http_status := 200;
         http_headers :=
           HttpHeaders_init
             [("content-type", HString "application/json; charset=utf-8")];
         http_body := match v with
                      | Some x => Some (BodyJSON x)
                      | None => None
                      end |}
  end.

(** Modelled from the spec: itty-router's [error] is not in the repository;
    "any unhandled error becomes a generic error HTTP response (no structured
    error body, no status-code mapping based on error kind)". *)
Definition error (e : exn) : HttpResponse :=
  {| http_status := 500; http_headers := ∅; http_body := None |}.

End itty.

(** [promise.then(f)] for a synchronous, total [f], and [promise.catch(h)]. *)
Definition then_ {A B} (m : M A) (f : A -> B) : M B :=
  a <- m;; ret (f a).

Definition catch {A} (m : M A) (h : exn -> A) : M A :=
  fun w =>
    match m w with
    | (Raised e, w') => (Returned (h e), w')
    | settled => settled
    end.

(** ** The worker, [src/worker.ts] *)

Record Env : Type := { ASSEMBLYAI_API_KEY : string }.

(** The request the runtime delivers. [req_pathname] is the path of [req_url]
    as the URL parser gives it; [req_formData] is what [request.formData()]
    settles to. *)
Record IRequest : Type := {
  req_method : string;
  req_url : string;
  req_pathname : string;
  req_formData : exn + list (string * AssemblyAiClient.FormDataEntryValue)
}.

Definition formData (request : IRequest)
  : M (list (string * AssemblyAiClient.FormDataEntryValue)) :=
  match req_formData request with
  | inl e => throw e
  | inr entries => ret entries
  end.

(** [formData.get(name)]: the first entry of that name, or [null]. *)
Fixpoint FormData_get (entries : list (string * AssemblyAiClient.FormDataEntryValue))
  (name : string) : option AssemblyAiClient.FormDataEntryValue :=
  match entries with
  | [] => None
  | (k, v) :: rest => if bool_decide (k = name) then Some v
                      else FormData_get rest name
  end.

Definition dq : string := String (ascii_of_N 34) EmptyString.

Definition upload_form : string :=
  "<!DOCTYPE html>
<body>
  <form action=" ++ dq ++ "/upload-file" ++ dq ++ " method=" ++ dq ++ "post"
  ++ dq ++ " enctype=" ++ dq ++ "multipart/form-data" ++ dq ++ ">
    <label for=" ++ dq ++ "file" ++ dq
  ++ ">Upload an audio or video file:</label> <br>
    <input type=" ++ dq ++ "file" ++ dq ++ " name=" ++ dq ++ "file" ++ dq
  ++ " id=" ++ dq ++ "file" ++ dq ++ " /><br>
    <button type=" ++ dq ++ "submit" ++ dq ++ ">Submit</button>
  </form>
</body>".

(** Route patterns. Modelled from the spec: itty-router's [Router] is not in
    the repository; it "maps three routes ... to handler functions", the last
    one binding the path parameter [id]. *)
Fixpoint strip_prefix (p s : string) : option string :=
  match p, s with
  | EmptyString, _ => Some s
  | String a p', String b s' =>
      if bool_decide (a = b) then strip_prefix p' s' else None
  | String _ _, EmptyString => None
  end.

Fixpoint has_slash (s : string) : bool :=
  match s with
  | EmptyString => false
  | String c s' => bool_decide (c = "/"%char) || has_slash s'
  end.

Definition match_transcript_id (pathname : string) : option string :=
  match strip_prefix "/transcript/" pathname with
  | Some id =>
      if bool_decide (id = EmptyString) || has_slash id then None else Some id
  | None => None
  end.

Module Worker.

(** [.post('/upload-file', async (request, env) => ...)]. *)
Definition upload_file (request : IRequest) (env : Env) : M handled :=
  formData <- formData request;;
  let file := FormData_get formData "file" in
  let client := ASSEMBLYAI_API_KEY env in
  uploadUrl <- AssemblyAiClient.uploadFile client file;;
  transcript <- AssemblyAiClient.createTranscript client
                  {| AssemblyAiClient.audio_url := uploadUrl;
                     AssemblyAiClient.webhook_url := undefined |};;
  id <- get transcript "id";;
  path <- template id;;
  let newUrl := {| url_reference := "/transcript/" ++ path;
                   url_base := req_url request |} in
  redirect <- Response_redirect newUrl 303;;
  ret (IsResponse redirect).

(** [.get('/transcript/:id', async (request, env) => ...)]; [id] is
    [request.params.id], bound by the router. *)
Definition transcript_by_id (id : string) (env : Env) : M handled :=
  let client := ASSEMBLYAI_API_KEY env in
  transcript <- AssemblyAiClient.getTranscript client id;;
  st <- get transcript "status";;
  if strict_eq_str st "completed" then
    txt <- get transcript "text";;
    ret (IsResponse (itty.text txt []))
  else
    ret (IsResponse (itty.text st [("Refresh", HString "3")])).

(** [router.handle(req, env)]: the first route whose method and pattern match;
    [undefined] when none does. *)
Definition handle (req : IRequest) (env : Env) : M handled :=
  if bool_decide (req_method req = "GET")
     && bool_decide (req_pathname req = "/") then
    ret (IsResponse (itty.html upload_form))
  else if bool_decide (req_method req = "POST")
          && bool_decide (req_pathname req = "/upload-file") then
    upload_file req env
  else if bool_decide (req_method req = "GET") then
    match match_transcript_id (req_pathname req) with
    | Some id => transcript_by_id id env
    | None => ret (IsValue undefined)
    end
  else ret (IsValue undefined).

(** [fetch: (req, ...args) => router.handle(req, ...args).then(json).catch(error)]. *)
Definition fetch (req : IRequest) (env : Env) : M HttpResponse :=
  catch (then_ (handle req env) itty.json) itty.error.

End Worker.

(** ** The variant of the worker on the AssemblyAI SDK (second half of
       [src/worker.ts]) *)

(** The SDK client, as far as the worker calls it. The SDK is a dependency,
    not part of the repository: its two calls are taken as given. *)
Record AssemblyAI : Type := {
  transcripts_submit : BodyInit -> M json;
  transcripts_get : string -> M json
}.

Module WorkerSdk.

Section WithSdk.

Variable new_AssemblyAI : string -> AssemblyAI.

Definition upload_file (request : IRequest) (env : Env) : M handled :=
  formData <- formData request;;
  let file := FormData_get formData "file" in
  let client := new_AssemblyAI (ASSEMBLYAI_API_KEY env) in
  audio <- AssemblyAiClient.stream file;;
  transcript <- transcripts_submit client audio;;
  id <- get transcript "id";;
  path <- template id;;
  let newUrl := {| url_reference := "/transcript/" ++ path;
                   url_base := req_url request |} in
  redirect <- Response_redirect newUrl 303;;
  ret (IsResponse redirect).

Definition transcript_by_id (id : string) (env : Env) : M handled :=
  let client := new_AssemblyAI (ASSEMBLYAI_API_KEY env) in
  transcript <- transcripts_get client id;;
  st <- get transcript "status";;
  if strict_eq_str st "completed" then
    txt <- get transcript "text";;
    ret (IsResponse (itty.text txt []))
  else
    ret (IsResponse (itty.text st [("Refresh", HString "1")])).

Definition handle (req : IRequest) (env : Env) : M handled :=
  if bool_decide (req_method req = "GET")
     && bool_decide (req_pathname req = "/") then
    ret (IsResponse (itty.html upload_form))
  else if bool_decide (req_method req = "POST")
          && bool_decide (req_pathname req = "/upload-file") then
    upload_file req env
  else if bool_decide (req_method req = "GET") then
    match match_transcript_id (req_pathname req) with
    | Some id => transcript_by_id id env
    | None => ret (IsValue undefined)
    end
  else ret (IsValue undefined).

Definition fetch (req : IRequest) (env : Env) : M HttpResponse :=
  catch (then_ (handle req env) itty.json) itty.error.

End WithSdk.

End WorkerSdk.

(** ** Vocabulary of the statements *)

(** Own property of a parsed value; [undefined] when it has none. *)
Definition own (v : json) (k : string) : value :=
  match v with
  | JObj fields => fields !! k
  | _ => undefined
  end.

(** Objects in the sense of [typeof v === 'object' && v !== null]. *)
Definition is_object (v : json) : bool :=
  match v with
  | JObj _ | JArr _ => true
  | _ => false
  end.

(** [ToBoolean]: the falsy parsed values are [null], [false], zero and the
    empty string. *)
Definition ToBoolean (v : value) : bool :=
  match v with
  | None | Some JNull | Some (JBool false) => false
  | Some (JNum repr) => negb (bool_decide (repr = "0"))
  | Some (JStr s) => negb (bool_decide (s = EmptyString))
  | Some _ => true
  end.

(** What the check of a parsed body settles to, before the operation picks
    its result out of the body. *)
Definition checked (a : Reply) : outcome json :=
  match body_json a with
  | None => Raised SyntaxError
  | Some v =>
      if is_object v then
        match own v "error" with
        | Some x => Raised (thrown x)
        | None => Returned v
        end
      else Raised (TypeError InOperandNotObject)
  end.

Definition map_outcome {A B} (f : A -> B) (o : outcome A) : outcome B :=
  match o with
  | Returned a => Returned (f a)
  | Raised e => Raised e
  | Awaiting => Awaiting
  end.

(** The requests the client sends. *)
Definition upload_request (apiKey : string) (f : File) : RequestInit :=
  {| rq_url := "https://api.assemblyai.com/v2/upload";
     rq_method := "POST";
     rq_headers := [("authorization", apiKey)];
     rq_body := Some (BodyStream f) |}.

Definition create_request (apiKey : string)
  (params : AssemblyAiClient.CreateTranscriptParams) : RequestInit :=
  {| rq_url := "https://api.assemblyai.com/v2/transcript";
     rq_method := "POST";
     rq_headers := [("authorization", apiKey);
                    ("Content-Type", "application/json")];
     rq_body := Some (BodyJSON (AssemblyAiClient.params_json params)) |}.

Definition transcript_request (apiKey id : string) : RequestInit :=
  {| rq_url := "https://api.assemblyai.com/v2/transcript/" ++ id;
     rq_method := "GET";
     rq_headers := [("authorization", apiKey)];
     rq_body := None |}.

Definition subtitles_request (apiKey id : string)
  (fmt : AssemblyAiClient.subtitleFormat) : RequestInit :=
  {| rq_url := "https://api.assemblyai.com/v2/transcript/" ++ id ++ "/"
               ++ AssemblyAiClient.format_name fmt;
     rq_method := "GET";
     rq_headers := [("authorization", apiKey)];
     rq_body := None |}.

(** The cases of the [switch] on [transcript.status]. *)
Definition waits (t : json) : bool :=
  strict_eq_str (own t "status") "queued"
  || strict_eq_str (own t "status") "processing".

Definition completed (t : json) : bool :=
  strict_eq_str (own t "status") "completed".

(** A polled reply after which the loop of [waitForTranscript] goes on: its
    body passes the check and its status is not [completed]. *)
Definition pending (a : Reply) : bool :=
  match checked a with
  | Returned t => negb (completed t)
  | _ => false
  end.

(** The timers one polled reply makes the loop set. *)
Definition naps (a : Reply) : list event :=
  match checked a with
  | Returned t => if waits t then [SetTimeout 3000] else []
  | _ => []
  end.

(** What polling through the replies [pre] adds to the trace. *)
Definition polled (rq : RequestInit) (pre : list Reply) : list event :=
  flat_map (fun a => Fetch rq :: naps a) pre.

(** The promise was rejected. *)
Definition raises {A} (o : outcome A) : Prop := exists e, o = Raised e.

(** The world after one more fetch has been answered. *)
Definition answered (rq : RequestInit) (rest : list Reply) (tr : list event)
  : World :=
  {| network := rest; trace := tr ++ [Fetch rq] |}.

Import AssemblyAiClient.

(** ** Sample replies of the remote service *)

Definition quoted (s : string) : string := dq ++ s ++ dq.

Definition field (k v : string) : string := quoted k ++ ":" ++ quoted v.

Definition transcript_body (id st txt : string) : json :=
  JObj (<["id" := JStr id]> (<["status" := JStr st]> {["text" := JStr txt]})).

(** A reply [{"id": ..., "status": ..., "text": ...}] with status 200. *)
Definition transcript_reply (id st txt : string) : Reply :=
  {| status := 200;
     statusText := "OK";
     headers := Headers_init [("content-type", "application/json")];
     body_text := "{" ++ field "id" id ++ "," ++ field "status" st ++ ","
                  ++ field "text" txt ++ "}";
     body_json := Some (transcript_body id st txt) |}.

(** A reply [{"error": msg}] with the given status line. *)
Definition error_reply (code : Z) (reason msg : string) : Reply :=
  {| status := code;
     statusText := reason;
     headers := Headers_init [("content-type", "application/json")];
     body_text := "{" ++ field "error" msg ++ "}";
     body_json := Some (JObj {["error" := JStr msg]}) |}.

(** The same reply under another status line. *)
Definition with_status (code : Z) (reason : string) (a : Reply) : Reply :=
  {| status := code;
     statusText := reason;
     headers := headers a;
     body_text := body_text a;
     body_json := body_json a |}.

(** A reply that is not JSON at all. *)
Definition html_reply (code : Z) (reason page : string) : Reply :=
  {| status := code;
     statusText := reason;
     headers := Headers_init [("Content-Type", "text/html")];
     body_text := page;
     body_json := None |}.

(** A reply [{"message": msg}], labelled as JSON, without [error]. *)
Definition message_reply (code : Z) (reason msg : string) : Reply :=
  {| status := code;
     statusText := reason;
     headers := Headers_init [("Content-Type", "application/json; charset=utf-8")];
     body_text := "{" ++ field "message" msg ++ "}";
     body_json := Some (JObj {["message" := JStr msg]}) |}.

(** Requests to the worker. *)
Definition get_request (url path : string) : IRequest :=
  {| req_method := "GET"; req_url := url; req_pathname := path;
     req_formData := inl (TypeError PropertyOfNullish) |}.

Definition a_file : File := {| file_name := "speech.mp3"; file_bytes := "ID3" |}.

Definition upload_post : IRequest :=
  {| req_method := "POST";
     req_url := "https://worker.example/upload-file";
     req_pathname := "/upload-file";
     req_formData := inr [("file", EntryFile a_file)] |}.

Definition an_env : Env := {| ASSEMBLYAI_API_KEY := "key" |}.

(** A reply [{"upload_url": url}]. *)
Definition upload_reply (url : string) : Reply :=
  {| status := 200;
     statusText := "OK";
     headers := Headers_init [("content-type", "application/json")];
     body_text := "{" ++ field "upload_url" url ++ "}";
     body_json := Some (JObj {["upload_url" := JStr url]}) |}.

(** An SDK client that answers every [get] with a fixed transcript. *)
Definition fixed_sdk (t : json) (apiKey : string) : AssemblyAI :=
  {| transcripts_submit := fun _ => ret t;
     transcripts_get := fun _ => ret t |}.

(** A reply whose body is [{"error": ""}]: an error object with a falsy
    message. *)
Definition empty_error_reply : Reply := error_reply 200 "OK" EmptyString.

(** ** Vocabulary for the traces and the redirects *)

(** The requests a trace records, in order. *)
Definition requests (tr : list event) : list RequestInit :=
  flat_map (fun ev => match ev with Fetch rq => [rq] | SetTimeout _ => [] end)
    tr.

(** An event that is no request, or a request that carries the API key in
    its [authorization] header. *)
Definition carries_key (apiKey : string) (ev : event) : Prop :=
  match ev with
  | Fetch rq => In ("authorization", apiKey) (rq_headers rq)
  | SetTimeout _ => True
  end.

(** The response [Response.redirect(new URL(reference, base).toString(), 303)]
    builds. *)
Definition see_other (reference base : string) : HttpResponse :=
  {| http_status := 303;
     http_headers :=
       HttpHeaders_init
         [("Location", HHref {| url_reference := reference;
                                url_base := base |})];
     http_body := None |}.

(** ** The path of a resolved URL

    The URL parser of the runtime, as far as it is needed for the path of
    [new URL(reference, base)] when [base] is the URL of a request (http or
    https) and [reference] starts with one slash and is made of ASCII letters,
    digits, [-], [_], [.] and [/]: these characters are kept as they are, the
    segments [.] and [..] are resolved, and the base contributes nothing to
    the path. Other references are not modelled ([None]). *)

Definition plain_char (c : ascii) : bool :=
  let n := N_of_ascii c in
  ((48 <=? n) && (n <=? 57) || (65 <=? n) && (n <=? 90)
   || (97 <=? n) && (n <=? 122) || (n =? 45) || (n =? 95))%N.

Definition path_char (c : ascii) : bool :=
  plain_char c || Ascii.eqb c "." || Ascii.eqb c "/".

Fixpoint string_forall (p : ascii -> bool) (s : string) : bool :=
  match s with
  | EmptyString => true
  | String c s' => p c && string_forall p s'
  end.

(** The path state at a slash: the buffer is a segment that ends here. *)
Definition close_segment (buffer : string) (path : list string)
  : list string :=
  if String.eqb buffer ".." then removelast path
  else if String.eqb buffer "." then path
  else path ++ [buffer].

(** The path state at the end of the input. *)
Definition close_last (buffer : string) (path : list string) : list string :=
  if String.eqb buffer ".." then removelast path ++ [EmptyString]
  else if String.eqb buffer "." then path ++ [EmptyString]
  else path ++ [buffer].

Fixpoint path_state (input buffer : string) (path : list string)
  : list string :=
  match input with
  | EmptyString => close_last buffer path
  | String c rest =>
      if Ascii.eqb c "/" then
        path_state rest EmptyString (close_segment buffer path)
      else path_state rest (buffer ++ String c EmptyString) path
  end.

Definition serialize_path (path : list string) : string :=
  fold_right (fun segment acc => "/" ++ segment ++ acc) EmptyString path.

Definition URL_pathname (u : URL) : option string :=
  match url_reference u with
  | String "/" rest =>
      if match rest with
         | String c _ => Ascii.eqb c "/"
         | EmptyString => false
         end
      then None
      else if string_forall path_char rest then
        Some (serialize_path (path_state rest EmptyString []))
      else None
  | _ => None
  end.

(** The path of the URL in the [Location] header of a response. *)
Definition target_path (r : HttpResponse) : option string :=
  match HttpHeaders_get (http_headers r) "Location" with
  | Some (HHref u) => URL_pathname u
  | _ => None
  end.

(** A reply whose body is the JSON text [null]. *)
Definition null_reply (code : Z) (reason : string) : Reply :=
  {| status := code;
     statusText := reason;
     headers := Headers_init [("content-type", "application/json")];
     body_text := "null";
     body_json := Some JNull |}.


(** A reply whose body is a JSON array of strings. *)
Definition array_reply (items : list string) : Reply :=
  {| status := 200;
     statusText := "OK";
     headers := Headers_init [("content-type", "application/json")];
     body_text := "[" ++ String.concat "," (List.map quoted items) ++ "]";
     body_json := Some (JArr (List.map JStr items)) |}.

(** A form without a [file] field. *)
Definition fileless_post : IRequest :=
  {| req_method := "POST";
     req_url := "https://worker.example/upload-file";
     req_pathname := "/upload-file";
     req_formData := inr [("title", EntryString "memo")] |}.

(** * Properties *)

Ltac js_unfold :=
  unfold uploadFile, createTranscript, getTranscript, poll_once, getSubtitles,
    throwIfError, stream, Response_json, Response_text, op_in, get, sleep,
    bind, ret, throw, fetch, log, consume, answered, checked in *.

Lemma throwIfError_object (v : json) (w : World) :
  is_object v = true ->
  throwIfError v w =
    (match own v "error" with
     | Some x => Raised (thrown x)
     | None => Returned tt
     end, w).
Proof.
  intros Hobj. destruct v; try discriminate; js_unfold; simpl; [reflexivity|].
  destruct (fields !! "error") as [x|] eqn:E.
  - rewrite bool_decide_eq_true_2 by eauto.
    unfold new_Error, string_of, thrown, bind, ret, throw.
    by destruct (ToString x).
  - rewrite bool_decide_eq_false_2; [reflexivity|]. intros [? ?]; discriminate.
Qed.

Lemma throwIfError_primitive (v : json) (w : World) :
  is_object v = false ->
  throwIfError v w = (Raised (TypeError InOperandNotObject), w).
Proof. intros Hobj. destruct v; try discriminate; reflexivity. Qed.

Lemma get_object (v : json) (k : string) (w : World) :
  is_object v = true -> get v k w = (Returned (own v k), w).
Proof. intros Hobj. destruct v; try discriminate; reflexivity. Qed.

(** The three one-shot JSON operations, run on a world whose network still
    has an answer. *)
Lemma getTranscript_run (apiKey id : string) (a : Reply) rest tr :
  getTranscript apiKey id {| network := a :: rest; trace := tr |} =
    (checked a, answered (transcript_request apiKey id) rest tr).
Proof.
  unfold getTranscript, bind at 1, fetch. simpl.
  unfold bind at 1, Response_json. simpl. unfold checked.
  destruct (body_json a) as [v|]; [|reflexivity].
  unfold ret at 1. simpl. unfold bind.
  destruct (is_object v) eqn:Hobj.
  - rewrite throwIfError_object by assumption.
    destruct (own v "error"); reflexivity.
  - rewrite throwIfError_primitive by assumption. reflexivity.
Qed.

Lemma createTranscript_run (apiKey : string) params (a : Reply) rest tr :
  createTranscript apiKey params {| network := a :: rest; trace := tr |} =
    (checked a, answered (create_request apiKey params) rest tr).
Proof.
  unfold createTranscript, bind at 1, fetch. simpl.
  unfold bind at 1, Response_json. simpl. unfold checked.
  destruct (body_json a) as [v|]; [|reflexivity].
  unfold ret at 1. simpl. unfold bind.
  destruct (is_object v) eqn:Hobj.
  - rewrite throwIfError_object by assumption.
    destruct (own v "error"); reflexivity.
  - rewrite throwIfError_primitive by assumption. reflexivity.
Qed.

Lemma uploadFile_run (apiKey : string) (f : File) (a : Reply) rest tr :
  uploadFile apiKey (Some (EntryFile f)) {| network := a :: rest; trace := tr |} =
    (map_outcome (fun v => own v "upload_url") (checked a),
     answered (upload_request apiKey f) rest tr).
Proof.
  unfold uploadFile, bind at 1, stream, ret at 1.
  unfold bind at 1, fetch. simpl.
  unfold bind at 1, Response_json. simpl. unfold checked.
  destruct (body_json a) as [v|]; [|reflexivity].
  unfold ret at 1. simpl. unfold bind.
  destruct (is_object v) eqn:Hobj.
  - rewrite throwIfError_object by assumption.
    destruct (own v "error"); [reflexivity|].
    rewrite get_object by assumption. reflexivity.
  - rewrite throwIfError_primitive by assumption. reflexivity.
Qed.

Lemma fetch_starved (rq : RequestInit) tr :
  fetch rq {| network := []; trace := tr |} =
    (Awaiting, {| network := []; trace := tr ++ [Fetch rq] |}).
Proof. reflexivity. Qed.

Lemma poll_once_starved (apiKey id : string) tr :
  poll_once apiKey ("https://api.assemblyai.com/v2/transcript/" ++ id)
    {| network := []; trace := tr |} =
    (Awaiting, answered (transcript_request apiKey id) [] tr).
Proof. reflexivity. Qed.

Lemma poll_once_run (apiKey id : string) (a : Reply) rest tr :
  poll_once apiKey ("https://api.assemblyai.com/v2/transcript/" ++ id)
    {| network := a :: rest; trace := tr |} =
    (match checked a with
     | Returned t =>
         if negb (waits t) && completed t then Returned (Return t)
         else Returned Continue
     | Raised e => Raised e
     | Awaiting => Awaiting
     end,
     {| network := rest;
        trace := tr ++ Fetch (transcript_request apiKey id) :: naps a |}).
Proof.
  unfold poll_once, bind at 1, fetch. simpl.
  unfold bind at 1, Response_json. simpl. unfold naps, checked.
  destruct (body_json a) as [v|]; [|reflexivity].
  unfold ret at 1. simpl. unfold bind at 1.
  destruct (is_object v) eqn:Hobj.
  - rewrite throwIfError_object by assumption.
    destruct (own v "error"); [reflexivity|].
    unfold bind. rewrite get_object by assumption.
    unfold waits, completed.
    destruct (strict_eq_str (own v "status") "queued"
              || strict_eq_str (own v "status") "processing"); simpl.
    + unfold sleep, log, ret. simpl. rewrite <- app_assoc. reflexivity.
    + destruct (strict_eq_str (own v "status") "completed"); reflexivity.
  - rewrite throwIfError_primitive by assumption. reflexivity.
Qed.

Lemma waits_not_completed (t : json) : waits t = true -> completed t = false.
Proof.
  unfold waits, completed, strict_eq_str.
  destruct (own t "status") as [[| | |s| |]|]; try discriminate.
  intros H. apply bool_decide_eq_false_2. intros ->.
  apply orb_true_iff in H as [H|H]; apply bool_decide_eq_true_1 in H;
    discriminate.
Qed.

Lemma completed_status (t : json) :
  completed t = true <-> own t "status" = Some (JStr "completed").
Proof.
  unfold completed, strict_eq_str. split.
  - destruct (own t "status") as [[| | |s| |]|]; try discriminate.
    intros H. apply bool_decide_eq_true_1 in H. by subst.
  - intros ->. reflexivity.
Qed.

Lemma getSubtitles_run (apiKey id : string) fmt (a : Reply) rest tr :
  getSubtitles apiKey id fmt {| network := a :: rest; trace := tr |} =
    (if bool_decide (status a ≠ 200) then
       if is_json_content a then
         match checked a with
         | Returned _ => Raised (TypeError BodyUsed)
         | Raised e => Raised e
         | Awaiting => Awaiting
         end
       else Raised (Error ("Get Subtitle request returned status "
                           ++ pretty (status a) ++ " " ++ statusText a))
     else Returned (body_text a),
     answered (subtitles_request apiKey id fmt) rest tr).
Proof.
  unfold getSubtitles, bind at 1, fetch. simpl.
  unfold bind at 1. simpl.
  destruct (bool_decide (status a ≠ 200)); [|reflexivity].
  destruct (is_json_content _); [|reflexivity].
  unfold bind at 1, Response_json. simpl. unfold checked.
  destruct (body_json a) as [v|]; [|reflexivity].
  unfold ret at 1. simpl. unfold bind at 1.
  destruct (is_object v) eqn:Hobj.
  - rewrite throwIfError_object by assumption.
    destruct (own v "error"); reflexivity.
  - rewrite throwIfError_primitive by assumption. reflexivity.
Qed.

(** *** The polling loop *)

Lemma waitForTranscript_unfold (apiKey id : string) (w : World) :
  waitForTranscript apiKey id w =
    poll (S (List.length (network w))) apiKey
      ("https://api.assemblyai.com/v2/transcript/" ++ id) w.
Proof. reflexivity. Qed.

Lemma poll_S (fuel : nat) (apiKey e : string) (w : World) :
  poll (S fuel) apiKey e w =
    match poll_once apiKey e w with
    | (Returned (Return t), w') => (Returned t, w')
    | (Returned Continue, w') => poll fuel apiKey e w'
    | (Raised x, w') => (Raised x, w')
    | (Awaiting, w') => (Awaiting, w')
    end.
Proof.
  simpl. unfold bind at 1.
  destruct (poll_once apiKey e w) as [[[t|]|x|] w']; reflexivity.
Qed.

Lemma pending_inv (a : Reply) :
  pending a = true ->
  exists t, checked a = Returned t /\ completed t = false.
Proof.
  unfold pending. destruct (checked a) as [t| |]; try discriminate.
  intros H. exists t. split; [reflexivity|].
  by destruct (completed t).
Qed.

(** Pending replies are polled through, one turn each. *)
Lemma poll_through (apiKey id : string) (pre : list Reply) :
  forall (fuel : nat) rest tr,
    forallb pending pre = true ->
    poll (List.length pre + fuel) apiKey
      ("https://api.assemblyai.com/v2/transcript/" ++ id)
      {| network := pre ++ rest; trace := tr |} =
    poll fuel apiKey ("https://api.assemblyai.com/v2/transcript/" ++ id)
      {| network := rest;
         trace := tr ++ polled (transcript_request apiKey id) pre |}.
Proof.
  induction pre as [|a pre IH]; intros fuel rest tr Hpre.
  - simpl. by rewrite app_nil_r.
  - simpl in Hpre. apply andb_true_iff in Hpre as [Ha Hpre].
    destruct (pending_inv a Ha) as (t & Hc & Hnot).
    change (List.length (a :: pre) + fuel)%nat
      with (S (List.length pre + fuel)).
    rewrite poll_S. change ((a :: pre) ++ rest)%list with (a :: (pre ++ rest))%list.
    rewrite poll_once_run, Hc, Hnot, andb_false_r.
    rewrite IH by assumption. unfold polled. simpl.
    by rewrite <- app_assoc.
Qed.

(** Fuel beyond one turn per answer of the network changes nothing: the
    unrolling in [waitForTranscript] never stops the loop short. *)
Lemma poll_enough_fuel (apiKey id : string) (net : list Reply) :
  forall (tr : list event) (fuel : nat),
    (List.length net < fuel)%nat ->
    poll fuel apiKey ("https://api.assemblyai.com/v2/transcript/" ++ id)
      {| network := net; trace := tr |} =
    waitForTranscript apiKey id {| network := net; trace := tr |}.
Proof.
  induction net as [|a rest IH]; intros tr fuel Hfuel;
    rewrite waitForTranscript_unfold; simpl network;
    (destruct fuel as [|fuel]; [simpl in Hfuel; lia|]);
    rewrite !poll_S.
  - by rewrite poll_once_starved.
  - rewrite poll_once_run.
    destruct (checked a) as [t|e|]; try reflexivity.
    destruct (negb (waits t) && completed t); [reflexivity|].
    rewrite IH by (simpl in Hfuel; lia).
    by rewrite waitForTranscript_unfold.
Qed.

(** What a returned transcript says about the replies polled. *)
Lemma poll_returns (apiKey id : string) (fuel : nat) :
  forall (w w' : World) (t : json),
    poll fuel apiKey ("https://api.assemblyai.com/v2/transcript/" ++ id) w
      = (Returned t, w') ->
    exists pre a,
      network w = (pre ++ a :: network w')%list
      /\ forallb pending pre = true
      /\ checked a = Returned t
      /\ completed t = true
      /\ trace w' = (trace w ++ polled (transcript_request apiKey id) pre
                      ++ [Fetch (transcript_request apiKey id)])%list.
Proof.
  induction fuel as [|fuel IH]; intros [net tr] w' t H.
  - discriminate.
  - rewrite poll_S in H. destruct net as [|a rest].
    + rewrite poll_once_starved in H. discriminate.
    + rewrite poll_once_run in H.
      destruct (checked a) as [u|x|] eqn:Hc; try discriminate.
      destruct (waits u) eqn:Hw; simpl in H.
      * apply IH in H as (pre & b & Hnet & Hpre & Hb & Hdone & Htr).
        simpl in Hnet, Htr. exists (a :: pre), b. simpl.
        repeat split; try assumption.
        -- by rewrite Hnet.
        -- rewrite Hpre, andb_true_r. unfold pending.
           by rewrite Hc, (waits_not_completed u Hw).
        -- rewrite Htr. unfold polled, naps. simpl. rewrite Hc, Hw.
           rewrite <- !app_assoc. reflexivity.
      * destruct (completed u) eqn:Hdone.
        -- inversion H; subst. exists [], a. simpl.
           repeat split; try assumption.
           unfold naps. by rewrite Hc, Hw.
        -- apply IH in H as (pre & b & Hnet & Hpre & Hb & Hdone' & Htr).
           simpl in Hnet, Htr. exists (a :: pre), b. simpl.
           repeat split; try assumption.
           ++ by rewrite Hnet.
           ++ rewrite Hpre, andb_true_r. unfold pending.
              by rewrite Hc, Hdone.
           ++ rewrite Htr. unfold polled, naps. simpl. rewrite Hc, Hw.
              rewrite <- !app_assoc. reflexivity.
Qed.

(** * The properties the specification states *)

(** C1, as stated, fails: [getTranscript] raises on the body [{"error": ""}],
    whose [error] field is not truthy. *)
Lemma falsy_error_still_raises :
  ~ (raises (fst (getTranscript "key" "abc123"
                    {| network := [empty_error_reply]; trace := [] |}))
     <-> ToBoolean (own (JObj {["error" := JStr EmptyString]}) "error") = true).
Proof.
  intros [Hraise _].
  assert (ToBoolean (own (JObj {["error" := JStr EmptyString]}) "error") = true)
    as Htruthy.
  { apply Hraise. exists (Error EmptyString). reflexivity. }
  vm_compute in Htruthy. discriminate.
Qed.

Lemma raises_checked_iff (a : Reply) (v : json) :
  body_json a = Some v -> is_object v = true ->
  raises (checked a) <-> is_Some (own v "error").
Proof.
  intros Hj Hobj. unfold checked, raises. rewrite Hj, Hobj.
  destruct (own v "error") as [x|]; split.
  - eauto.
  - intros _. eauto.
  - intros [e He]. discriminate.
  - intros [x Hx]. discriminate.
Qed.

Lemma raises_map_outcome {A B} (f : A -> B) (o : outcome A) :
  raises (map_outcome f o) <-> raises o.
Proof.
  unfold raises. destruct o; simpl; split; intros [x Hx]; try discriminate;
    eauto.
Qed.

Lemma checked_error (a : Reply) (v x : json) :
  body_json a = Some v -> is_object v = true -> own v "error" = Some x ->
  checked a = Raised (thrown x).
Proof. intros Hj Hobj Hx. unfold checked. by rewrite Hj, Hobj, Hx. Qed.

Lemma thrown_message (x : json) (s : string) :
  ToString x = Some s -> thrown x = Error s.
Proof. unfold thrown. by intros ->. Qed.

Lemma thrown_no_conversion (x : json) :
  ToString x = None -> thrown x = TypeError NoPrimitiveValue.
Proof. unfold thrown. by intros ->. Qed.

(** C1 (amended): on a parsed body that is an object, [uploadFile],
    [createTranscript], [getTranscript] and one turn of [waitForTranscript]
    raise exactly when the body has an [error] property, truthy or not. When
    that property has a string conversion, the raised error has it as its
    message: the property itself when it is a string; when it has none (an
    object with a [toString] property of its own), the [TypeError] of the
    conversion is raised instead. The JSON branch of [getSubtitles] raises
    the same when the property is there. *)
Theorem error_property_raises (apiKey id : string) (f : File)
  (params : CreateTranscriptParams) (fmt : subtitleFormat)
  (a : Reply) (v : json) (rest : list Reply) (tr : list event) :
  body_json a = Some v ->
  is_object v = true ->
  (raises (fst (uploadFile apiKey (Some (EntryFile f))
                  {| network := a :: rest; trace := tr |}))
     <-> is_Some (own v "error"))
  /\ (raises (fst (createTranscript apiKey params
                     {| network := a :: rest; trace := tr |}))
        <-> is_Some (own v "error"))
  /\ (raises (fst (getTranscript apiKey id
                     {| network := a :: rest; trace := tr |}))
        <-> is_Some (own v "error"))
  /\ (raises (fst (poll_once apiKey
                     ("https://api.assemblyai.com/v2/transcript/" ++ id)
                     {| network := a :: rest; trace := tr |}))
        <-> is_Some (own v "error"))
  /\ (forall (x : json) (message : string),
        own v "error" = Some x ->
        ToString x = Some message ->
        fst (uploadFile apiKey (Some (EntryFile f))
               {| network := a :: rest; trace := tr |})
          = Raised (Error message)
        /\ fst (createTranscript apiKey params
                  {| network := a :: rest; trace := tr |})
             = Raised (Error message)
        /\ fst (getTranscript apiKey id
                  {| network := a :: rest; trace := tr |})
             = Raised (Error message)
        /\ fst (poll_once apiKey
                  ("https://api.assemblyai.com/v2/transcript/" ++ id)
                  {| network := a :: rest; trace := tr |})
             = Raised (Error message)
        /\ (status a <> 200 ->
            is_json_content a = true ->
            fst (getSubtitles apiKey id fmt
                   {| network := a :: rest; trace := tr |})
              = Raised (Error message)))
  /\ (forall x : json,
        own v "error" = Some x ->
        ToString x = None ->
        fst (uploadFile apiKey (Some (EntryFile f))
               {| network := a :: rest; trace := tr |})
          = Raised (TypeError NoPrimitiveValue)
        /\ fst (createTranscript apiKey params
                  {| network := a :: rest; trace := tr |})
             = Raised (TypeError NoPrimitiveValue)
        /\ fst (getTranscript apiKey id
                  {| network := a :: rest; trace := tr |})
             = Raised (TypeError NoPrimitiveValue)
        /\ fst (poll_once apiKey
                  ("https://api.assemblyai.com/v2/transcript/" ++ id)
                  {| network := a :: rest; trace := tr |})
             = Raised (TypeError NoPrimitiveValue)
        /\ (status a <> 200 ->
            is_json_content a = true ->
            fst (getSubtitles apiKey id fmt
                   {| network := a :: rest; trace := tr |})
              = Raised (TypeError NoPrimitiveValue)))
  /\ (forall s : string, ToString (JStr s) = Some s).
Proof.
  intros Hj Hobj.
  rewrite uploadFile_run, createTranscript_run, getTranscript_run,
    poll_once_run, getSubtitles_run. simpl.
  pose proof (raises_checked_iff a v Hj Hobj) as Hiff.
  split; [by rewrite raises_map_outcome|].
  split; [assumption|]. split; [assumption|].
  split; [|split; [|split; [|reflexivity]]].
  - rewrite <- Hiff. unfold raises.
    destruct (checked a) as [t| |]; [|split; intros _; eauto|].
    + destruct (negb (waits t) && completed t); split; intros [e He];
        discriminate.
    + split; intros [e He]; discriminate.
  - intros x message Hx Hs.
    rewrite (checked_error a v x Hj Hobj Hx), (thrown_message x message Hs).
    simpl. repeat split. intros Hst Hct.
    rewrite bool_decide_eq_true_2 by assumption. by rewrite Hct.
  - intros x Hx Hs.
    rewrite (checked_error a v x Hj Hobj Hx), (thrown_no_conversion x Hs).
    simpl. repeat split. intros Hst Hct.
    rewrite bool_decide_eq_true_2 by assumption. by rewrite Hct.
Qed.

Lemma error_property_raises_witness :
  fst (uploadFile "key" (Some (EntryFile {| file_name := "a.mp3";
                                            file_bytes := "ID3" |}))
         {| network := [error_reply 401 "Unauthorized" "invalid api key"];
            trace := [] |})
    = Raised (Error "invalid api key").
Proof.
  refine (proj1 (proj1 (proj2 (proj2 (proj2 (proj2
    (error_property_raises "key" "abc123"
       {| file_name := "a.mp3"; file_bytes := "ID3" |}
       {| audio_url := undefined; webhook_url := undefined |} srt
       (error_reply 401 "Unauthorized" "invalid api key")
       (JObj {["error" := JStr "invalid api key"]}) [] []
       _ _))))) (JStr "invalid api key") "invalid api key" _ _));
    reflexivity.
Defined.

Lemma strict_eq_str_iff (st : value) (lit : string) :
  strict_eq_str st lit = true <-> st = Some (JStr lit).
Proof.
  unfold strict_eq_str. split.
  - destruct st as [[| | |s| |]|]; try discriminate.
    intros H. apply bool_decide_eq_true_1 in H. by subst.
  - intros ->. by apply bool_decide_eq_true_2.
Qed.

Lemma strict_eq_str_false (st : value) (lit : string) :
  st <> Some (JStr lit) -> strict_eq_str st lit = false.
Proof.
  intros H. destruct (strict_eq_str st lit) eqn:E; [|reflexivity].
  apply strict_eq_str_iff in E. contradiction.
Qed.

Lemma checked_settled (a : Reply) : checked a <> Awaiting.
Proof.
  unfold checked. destruct (body_json a) as [v|]; [|discriminate].
  destruct (is_object v); [|discriminate].
  destruct (own v "error"); discriminate.
Qed.

Lemma settled_naps (a : Reply) : pending a = false -> naps a = [].
Proof.
  unfold pending, naps. destruct (checked a) as [t| |]; try reflexivity.
  intros H. destruct (waits t) eqn:Hw; [|reflexivity].
  rewrite (waits_not_completed t Hw) in H. discriminate.
Qed.

(** The loop ends at the first polled reply that is not pending, with what
    the check of that reply gives, and fetches nothing after it. *)
Lemma waitForTranscript_settles (apiKey id : string)
  (pre : list Reply) (a : Reply) (post : list Reply) (tr : list event) :
  forallb pending pre = true ->
  pending a = false ->
  waitForTranscript apiKey id {| network := pre ++ a :: post; trace := tr |} =
    (checked a,
     {| network := post;
        trace := tr ++ polled (transcript_request apiKey id) pre
                 ++ [Fetch (transcript_request apiKey id)] |}).
Proof.
  intros Hpre Ha. rewrite waitForTranscript_unfold. simpl network.
  replace (S (List.length (pre ++ a :: post)))
    with (List.length pre + S (S (List.length post)))%nat
    by (rewrite length_app; simpl; lia).
  rewrite poll_through by assumption.
  rewrite poll_S, poll_once_run, (settled_naps a Ha), app_assoc.
  unfold pending in Ha. destruct (checked a) as [t|e|]; try reflexivity.
  destruct (completed t) eqn:Hdone; [|discriminate].
  destruct (waits t) eqn:Hw; [|reflexivity].
  rewrite (waits_not_completed t Hw) in Hdone. discriminate.
Qed.

(** While every polled reply is pending the promise stays suspended. *)
Lemma waitForTranscript_pending (apiKey id : string)
  (pre : list Reply) (tr : list event) :
  forallb pending pre = true ->
  waitForTranscript apiKey id {| network := pre; trace := tr |} =
    (Awaiting,
     {| network := [];
        trace := tr ++ polled (transcript_request apiKey id) pre
                 ++ [Fetch (transcript_request apiKey id)] |}).
Proof.
  intros Hpre. rewrite waitForTranscript_unfold. simpl network.
  replace (S (List.length pre)) with (List.length pre + 1)%nat by lia.
  rewrite <- (app_nil_r pre) at 2.
  rewrite poll_through by assumption.
  rewrite poll_S, poll_once_starved. unfold answered.
  by rewrite app_assoc.
Qed.

Lemma polled_timers (rq : RequestInit) (pre : list Reply) (ms : Z) :
  In (SetTimeout ms) (polled rq pre) -> ms = 3000.
Proof.
  unfold polled. rewrite in_flat_map. intros (a & _ & [H|H]); [discriminate|].
  unfold naps in H. destruct (checked a) as [t| |]; try contradiction.
  destruct (waits t); [|contradiction].
  destruct H as [H|[]]. by inversion H.
Qed.

(** C2: [waitForTranscript] returns only a transcript whose status is
    [completed], namely the body of the first polled reply with that status,
    all replies before it having been pending; it raises, fetching nothing
    more, at the first polled reply whose body has an [error] property: the
    error with the string conversion of that property as its message, or the
    [TypeError] of the conversion when the property has none; and between
    polls it sets a timer of 3000 ms after each reply whose status is
    [queued] or [processing], and no other timer. *)
Theorem waitForTranscript_completed_or_raises (apiKey id : string) :
  (forall (w w' : World) (t : json),
      waitForTranscript apiKey id w = (Returned t, w') ->
      own t "status" = Some (JStr "completed")
      /\ exists pre a,
           network w = (pre ++ a :: network w')%list
           /\ forallb pending pre = true
           /\ body_json a = Some t)
  /\ (forall (pre : list Reply) (a : Reply) (post : list Reply)
        (tr : list event) (t : json),
        forallb pending pre = true ->
        body_json a = Some t ->
        is_object t = true ->
        own t "error" = None ->
        own t "status" = Some (JStr "completed") ->
        waitForTranscript apiKey id
          {| network := pre ++ a :: post; trace := tr |} =
          (Returned t,
           {| network := post;
              trace := tr ++ polled (transcript_request apiKey id) pre
                       ++ [Fetch (transcript_request apiKey id)] |}))
  /\ (forall (pre : list Reply) (a : Reply) (post : list Reply)
        (tr : list event) (v x : json),
        forallb pending pre = true ->
        body_json a = Some v ->
        is_object v = true ->
        own v "error" = Some x ->
        waitForTranscript apiKey id
          {| network := pre ++ a :: post; trace := tr |} =
          (Raised (match ToString x with
                   | Some message => Error message
                   | None => TypeError NoPrimitiveValue
                   end),
           {| network := post;
              trace := tr ++ polled (transcript_request apiKey id) pre
                       ++ [Fetch (transcript_request apiKey id)] |}))
  /\ (forall (a : Reply) (t : json),
        checked a = Returned t ->
        (own t "status" = Some (JStr "queued")
         \/ own t "status" = Some (JStr "processing") ->
         naps a = [SetTimeout 3000])
        /\ (own t "status" <> Some (JStr "queued") ->
            own t "status" <> Some (JStr "processing") ->
            naps a = []))
  /\ (forall (pre : list Reply) (ms : Z),
        In (SetTimeout ms) (polled (transcript_request apiKey id) pre) ->
        ms = 3000).
Proof.
  split; [|split; [|split; [|split]]].
  - intros w w' t H. rewrite waitForTranscript_unfold in H.
    apply poll_returns in H as (pre & a & Hnet & Hpre & Hc & Hdone & _).
    split; [by apply completed_status|].
    exists pre, a. repeat split; try assumption.
    unfold checked in Hc. destruct (body_json a) as [v|]; [|discriminate].
    destruct (is_object v); [|discriminate].
    destruct (own v "error"); [discriminate|]. by inversion Hc.
  - intros pre a post tr t Hpre Hj Hobj Herr Hst.
    assert (checked a = Returned t) as Hc.
    { unfold checked. by rewrite Hj, Hobj, Herr. }
    rewrite waitForTranscript_settles, Hc; [reflexivity|assumption|].
    unfold pending. rewrite Hc.
    apply completed_status in Hst. by rewrite Hst.
  - intros pre a post tr v x Hpre Hj Hobj Herr.
    pose proof (checked_error a v x Hj Hobj Herr) as Hc.
    rewrite waitForTranscript_settles, Hc; [reflexivity|assumption|].
    unfold pending. by rewrite Hc.
  - intros a t Hc. unfold naps, waits. rewrite Hc. split.
    + intros [H|H]; apply strict_eq_str_iff in H; rewrite H;
        by rewrite ?orb_true_r.
    + intros Hq Hp. by rewrite !strict_eq_str_false.
  - intros pre ms. apply polled_timers.
Qed.

Lemma waitForTranscript_completed_or_raises_witness :
  waitForTranscript "key" "abc123"
    {| network := [transcript_reply "abc123" "queued" EmptyString;
                   transcript_reply "abc123" "processing" EmptyString;
                   transcript_reply "abc123" "completed" "hello world";
                   transcript_reply "abc123" "completed" "never polled"];
       trace := [] |} =
    (Returned (transcript_body "abc123" "completed" "hello world"),
     {| network := [transcript_reply "abc123" "completed" "never polled"];
        trace := [Fetch (transcript_request "key" "abc123"); SetTimeout 3000;
                  Fetch (transcript_request "key" "abc123"); SetTimeout 3000;
                  Fetch (transcript_request "key" "abc123")] |}).
Proof.
  exact (proj1 (proj2 (waitForTranscript_completed_or_raises "key" "abc123"))
           [transcript_reply "abc123" "queued" EmptyString;
            transcript_reply "abc123" "processing" EmptyString]
           (transcript_reply "abc123" "completed" "hello world")
           [transcript_reply "abc123" "completed" "never polled"] []
           (transcript_body "abc123" "completed" "hello world")
           eq_refl eq_refl eq_refl eq_refl eq_refl).
Defined.

(** C3: a polled reply whose body has no [error] property and whose status is
    none of [queued], [processing], [completed] makes the turn neither return
    nor raise, and sets no timer: the loop goes on to the next poll. *)
Theorem unrecognised_status_keeps_polling (apiKey id : string)
  (a : Reply) (v : json) (rest : list Reply) (tr : list event) :
  body_json a = Some v ->
  is_object v = true ->
  own v "error" = None ->
  own v "status" <> Some (JStr "queued") ->
  own v "status" <> Some (JStr "processing") ->
  own v "status" <> Some (JStr "completed") ->
  poll_once apiKey ("https://api.assemblyai.com/v2/transcript/" ++ id)
    {| network := a :: rest; trace := tr |} =
    (Returned Continue, answered (transcript_request apiKey id) rest tr)
  /\ waitForTranscript apiKey id {| network := a :: rest; trace := tr |} =
       waitForTranscript apiKey id
         (answered (transcript_request apiKey id) rest tr).
Proof.
  intros Hj Hobj Herr Hq Hp Hc.
  assert (checked a = Returned v) as Hchk.
  { unfold checked. by rewrite Hj, Hobj, Herr. }
  assert (poll_once apiKey ("https://api.assemblyai.com/v2/transcript/" ++ id)
            {| network := a :: rest; trace := tr |} =
          (Returned Continue, answered (transcript_request apiKey id) rest tr))
    as Hturn.
  { rewrite poll_once_run. unfold naps, waits, completed. rewrite Hchk.
    by rewrite !strict_eq_str_false. }
  split; [assumption|].
  rewrite !waitForTranscript_unfold. simpl network.
  by rewrite poll_S, Hturn.
Qed.

Lemma unrecognised_status_keeps_polling_witness :
  waitForTranscript "key" "abc123"
    {| network := [transcript_reply "abc123" "error" EmptyString];
       trace := [] |} =
    (Awaiting,
     {| network := [];
        trace := [Fetch (transcript_request "key" "abc123");
                  Fetch (transcript_request "key" "abc123")] |}).
Proof.
  rewrite (proj2 (unrecognised_status_keeps_polling "key" "abc123"
                    (transcript_reply "abc123" "error" EmptyString)
                    (transcript_body "abc123" "error" EmptyString) [] []
                    eq_refl eq_refl eq_refl
                    ltac:(discriminate) ltac:(discriminate)
                    ltac:(discriminate))).
  reflexivity.
Defined.

Lemma getSubtitles_not_200_no_value (apiKey id : string)
  (fmt : subtitleFormat) (a : Reply) (rest : list Reply) (tr : list event)
  (subtitles : string) :
  status a <> 200 ->
  fst (getSubtitles apiKey id fmt {| network := a :: rest; trace := tr |})
    <> Returned subtitles.
Proof.
  intros Hst. rewrite getSubtitles_run. simpl.
  rewrite bool_decide_eq_true_2 by assumption.
  destruct (is_json_content a); [|discriminate].
  destruct (checked a); discriminate.
Qed.

(** C5: when the status of the reply is not 200, [getSubtitles] raises: the
    message embedded in the body when the content type starts with
    [application/json] and the body has an [error] property with a string
    conversion, and for another content type an error that names the status
    code and the status text. In no case does it return subtitle text. *)
Theorem getSubtitles_not_200_raises (apiKey id : string) (fmt : subtitleFormat)
  (a : Reply) (rest : list Reply) (tr : list event) :
  status a <> 200 ->
  (forall (v x : json) (message : string),
      is_json_content a = true ->
      body_json a = Some v ->
      is_object v = true ->
      own v "error" = Some x ->
      ToString x = Some message ->
      fst (getSubtitles apiKey id fmt {| network := a :: rest; trace := tr |})
        = Raised (Error message))
  /\ (is_json_content a = false ->
      fst (getSubtitles apiKey id fmt {| network := a :: rest; trace := tr |})
        = Raised (Error ("Get Subtitle request returned status "
                         ++ pretty (status a) ++ " " ++ statusText a)))
  /\ raises (fst (getSubtitles apiKey id fmt
                    {| network := a :: rest; trace := tr |}))
  /\ (forall subtitles : string,
        fst (getSubtitles apiKey id fmt
               {| network := a :: rest; trace := tr |})
          <> Returned subtitles).
Proof.
  intros Hst.
  split; [|split; [|split]];
    [| | |intros subtitles; by apply getSubtitles_not_200_no_value];
    rewrite getSubtitles_run; simpl;
    rewrite bool_decide_eq_true_2 by assumption.
  - intros v x message Hct Hj Hobj Herr Hs. rewrite Hct.
    by rewrite (checked_error a v x Hj Hobj Herr), (thrown_message x message Hs).
  - by intros ->.
  - pose proof (checked_settled a) as Hs. unfold raises.
    destruct (is_json_content a); [|eauto].
    destruct (checked a); [eauto|eauto|contradiction].
Qed.

Lemma getSubtitles_not_200_raises_witness :
  fst (getSubtitles "key" "abc123" vtt
         {| network := [html_reply 502 "Bad Gateway" "<h1>Bad Gateway</h1>"];
            trace := [] |})
    = Raised (Error "Get Subtitle request returned status 502 Bad Gateway")
  /\ fst (getSubtitles "key" "abc123" srt
            {| network := [error_reply 404 "Not Found" "transcript not found"];
               trace := [] |})
       = Raised (Error "transcript not found").
Proof.
  split.
  - exact (proj1 (proj2 (getSubtitles_not_200_raises "key" "abc123" vtt
                           (html_reply 502 "Bad Gateway" "<h1>Bad Gateway</h1>")
                           [] [] ltac:(discriminate))) eq_refl).
  - exact (proj1 (getSubtitles_not_200_raises "key" "abc123" srt
                    (error_reply 404 "Not Found" "transcript not found")
                    [] [] ltac:(discriminate))
             (JObj {["error" := JStr "transcript not found"]})
             (JStr "transcript not found") "transcript not found"
             eq_refl eq_refl eq_refl eq_refl eq_refl).
Defined.

(** C6: when the status of the reply is 200, [getSubtitles] returns the text
    of the body as received, whatever the status text, the headers, the text
    and what the text would parse to: the body is not parsed and no check is
    applied to it. *)
Theorem getSubtitles_200_returns_raw_text (apiKey id : string)
  (fmt : subtitleFormat) (reason : string) (hdrs : gmap string string)
  (raw : string) (parse : option json) (rest : list Reply) (tr : list event) :
  getSubtitles apiKey id fmt
    {| network := {| status := 200; statusText := reason; headers := hdrs;
                     body_text := raw; body_json := parse |} :: rest;
       trace := tr |} =
    (Returned raw, answered (subtitles_request apiKey id fmt) rest tr).
Proof. by rewrite getSubtitles_run. Qed.

(** C10: when the status is not 200, the content type is JSON and the parsed
    body has no [error] property, [getSubtitles] fails on reading the body a
    second time; so for no reply with a status other than 200 does
    [getSubtitles] return a value. *)
Theorem getSubtitles_not_200_never_returns (apiKey id : string)
  (fmt : subtitleFormat) (rest : list Reply) (tr : list event) :
  (forall (a : Reply) (v : json),
      status a <> 200 ->
      is_json_content a = true ->
      body_json a = Some v ->
      is_object v = true ->
      own v "error" = None ->
      getSubtitles apiKey id fmt {| network := a :: rest; trace := tr |} =
        (Raised (TypeError BodyUsed),
         answered (subtitles_request apiKey id fmt) rest tr))
  /\ (forall (a : Reply) (subtitles : string),
        status a <> 200 ->
        fst (getSubtitles apiKey id fmt
               {| network := a :: rest; trace := tr |})
          <> Returned subtitles).
Proof.
  split.
  - intros a v Hst Hct Hj Hobj Herr. rewrite getSubtitles_run.
    rewrite bool_decide_eq_true_2 by assumption. rewrite Hct.
    unfold checked. by rewrite Hj, Hobj, Herr.
  - intros a subtitles Hst. by apply getSubtitles_not_200_no_value.
Qed.

Lemma getSubtitles_not_200_never_returns_witness :
  getSubtitles "key" "abc123" srt
    {| network := [message_reply 500 "Internal Server Error" "try later"];
       trace := [] |} =
    (Raised (TypeError BodyUsed),
     {| network := [];
        trace := [Fetch (subtitles_request "key" "abc123" srt)] |}).
Proof.
  exact (proj1 (getSubtitles_not_200_never_returns "key" "abc123" srt [] [])
           (message_reply 500 "Internal Server Error" "try later")
           (JObj {["message" := JStr "try later"]})
           ltac:(discriminate) eq_refl eq_refl eq_refl eq_refl).
Defined.

(** C8: [uploadFile], [createTranscript] and [getTranscript] settle by the
    parsed body of the reply alone: two replies with the same parsed body,
    whatever their status codes, status texts, headers and raw texts, give the
    same result. *)
Theorem status_code_not_inspected (apiKey id : string)
  (file : option FormDataEntryValue) (params : CreateTranscriptParams)
  (a1 a2 : Reply) (rest : list Reply) (tr : list event) :
  body_json a1 = body_json a2 ->
  fst (uploadFile apiKey file {| network := a1 :: rest; trace := tr |})
    = fst (uploadFile apiKey file {| network := a2 :: rest; trace := tr |})
  /\ fst (createTranscript apiKey params
            {| network := a1 :: rest; trace := tr |})
     = fst (createTranscript apiKey params
              {| network := a2 :: rest; trace := tr |})
  /\ fst (getTranscript apiKey id {| network := a1 :: rest; trace := tr |})
     = fst (getTranscript apiKey id {| network := a2 :: rest; trace := tr |}).
Proof.
  intros Hbody.
  assert (checked a1 = checked a2) as Hc by (unfold checked; by rewrite Hbody).
  rewrite !createTranscript_run, !getTranscript_run, Hc.
  split; [|split; reflexivity].
  destruct file as [[f|s]|]; [|reflexivity..].
  by rewrite !uploadFile_run, Hc.
Qed.

Lemma status_code_not_inspected_witness :
  fst (getTranscript "key" "abc123"
         {| network := [transcript_reply "abc123" "completed" "hello world"];
            trace := [] |})
  = fst (getTranscript "key" "abc123"
           {| network := [with_status 500 "Internal Server Error"
                            (transcript_reply "abc123" "completed"
                               "hello world")];
              trace := [] |}).
Proof.
  exact (proj2 (proj2 (status_code_not_inspected "key" "abc123" None
                         {| audio_url := undefined; webhook_url := undefined |}
                         (transcript_reply "abc123" "completed" "hello world")
                         (with_status 500 "Internal Server Error"
                            (transcript_reply "abc123" "completed"
                               "hello world"))
                         [] [] eq_refl))).
Defined.

(** *** The routes *)

Lemma getTranscript_returns (apiKey id : string) (w w' : World) (t : json) :
  getTranscript apiKey id w = (Returned t, w') ->
  is_object t = true /\ own t "error" = None.
Proof.
  destruct w as [[|a rest] tr]; [discriminate|].
  rewrite getTranscript_run. unfold checked. intros H.
  destruct (body_json a) as [v|]; [|discriminate].
  destruct (is_object v) eqn:Hobj; [|discriminate].
  destruct (own v "error") eqn:Herr; [discriminate|].
  inversion H; subst. by split.
Qed.

Lemma createTranscript_returns (apiKey : string) params (w w' : World)
  (t : json) :
  createTranscript apiKey params w = (Returned t, w') ->
  is_object t = true /\ own t "error" = None.
Proof.
  destruct w as [[|a rest] tr]; [discriminate|].
  rewrite createTranscript_run. unfold checked. intros H.
  destruct (body_json a) as [v|]; [|discriminate].
  destruct (is_object v) eqn:Hobj; [|discriminate].
  destruct (own v "error") eqn:Herr; [discriminate|].
  inversion H; subst. by split.
Qed.

Lemma get_not_null (v : json) (k : string) (w : World) :
  v <> JNull -> get v k w = (Returned (own v k), w).
Proof. intros Hv. destruct v; try reflexivity. contradiction. Qed.

Lemma object_not_null (v : json) : is_object v = true -> v <> JNull.
Proof. intros H ->. discriminate. Qed.

(** The body of both variants of the [/transcript/:id] handler, after the
    transcript has been fetched. *)
Lemma render_transcript (refresh : string) (t : json) (w : World) :
  t <> JNull ->
  (st <- get t "status";;
   if strict_eq_str st "completed" then
     txt <- get t "text";;
     ret (IsResponse (itty.text txt []))
   else
     ret (IsResponse (itty.text st [("Refresh", HString refresh)]))) w =
    (Returned
       (IsResponse
          (if completed t then itty.text (own t "text") []
           else itty.text (own t "status") [("Refresh", HString refresh)])),
     w).
Proof.
  intros Hv. unfold bind at 1. rewrite get_not_null by assumption.
  unfold completed. destruct (strict_eq_str (own t "status") "completed").
  - unfold bind. by rewrite get_not_null.
  - reflexivity.
Qed.

(** C4: once the transcript is fetched, [GET /transcript/:id] answers with
    the text of the transcript as plain text when its status is [completed],
    and for every other status with the status as plain text and a [Refresh]
    header, of value 3 in the worker on the repository's client and 1 in the
    worker on the SDK. *)
Theorem transcript_route_renders (id : string) (env : Env) :
  (forall (w w' : World) (t : json),
      getTranscript (ASSEMBLYAI_API_KEY env) id w = (Returned t, w') ->
      (own t "status" = Some (JStr "completed") ->
       Worker.transcript_by_id id env w =
         (Returned (IsResponse (itty.text (own t "text") [])), w'))
      /\ (own t "status" <> Some (JStr "completed") ->
          Worker.transcript_by_id id env w =
            (Returned (IsResponse
                         (itty.text (own t "status")
                            [("Refresh", HString "3")])), w')))
  /\ (forall (sdk : string -> AssemblyAI) (w w' : World) (t : json),
        transcripts_get (sdk (ASSEMBLYAI_API_KEY env)) id w
          = (Returned t, w') ->
        t <> JNull ->
        (own t "status" = Some (JStr "completed") ->
         WorkerSdk.transcript_by_id sdk id env w =
           (Returned (IsResponse (itty.text (own t "text") [])), w'))
        /\ (own t "status" <> Some (JStr "completed") ->
            WorkerSdk.transcript_by_id sdk id env w =
              (Returned (IsResponse
                           (itty.text (own t "status")
                              [("Refresh", HString "1")])), w')))
  /\ (forall (s : string) (options : list (string * header_value)),
        http_body (itty.text (Some (JStr s)) options) = Some (BodyString s))
  /\ (forall (body : value) (delay : string),
        HttpHeaders_get
          (http_headers (itty.text body [("Refresh", HString delay)]))
          "Refresh" = Some (HString delay)
        /\ HttpHeaders_get (http_headers (itty.text body [])) "Refresh" = None).
Proof.
  split; [|split; [|split]].
  - intros w w' t Hget.
    destruct (getTranscript_returns _ _ _ _ _ Hget) as [Hobj _].
    apply object_not_null in Hobj.
    split; intros Hst; unfold Worker.transcript_by_id, bind at 1;
      rewrite Hget, (render_transcript "3") by assumption.
    + apply completed_status in Hst. by rewrite Hst.
    + unfold completed. by rewrite strict_eq_str_false.
  - intros sdk w w' t Hget Hnull.
    split; intros Hst; unfold WorkerSdk.transcript_by_id, bind at 1;
      rewrite Hget, (render_transcript "1") by assumption.
    + apply completed_status in Hst. by rewrite Hst.
    + unfold completed. by rewrite strict_eq_str_false.
  - reflexivity.
  - intros body delay. split; reflexivity.
Qed.

Lemma transcript_route_renders_witness :
  Worker.transcript_by_id "abc123" an_env
    {| network := [transcript_reply "abc123" "processing" EmptyString];
       trace := [] |} =
    (Returned (IsResponse (itty.text (Some (JStr "processing"))
                             [("Refresh", HString "3")])),
     {| network := [];
        trace := [Fetch (transcript_request "key" "abc123")] |})
  /\ WorkerSdk.transcript_by_id
       (fixed_sdk (transcript_body "abc123" "completed" "hello world"))
       "abc123" an_env {| network := []; trace := [] |} =
       (Returned (IsResponse (itty.text (Some (JStr "hello world")) [])),
        {| network := []; trace := [] |}).
Proof.
  split.
  - exact (proj2 (proj1 (transcript_route_renders "abc123" an_env)
                    {| network := [transcript_reply "abc123" "processing"
                                     EmptyString];
                       trace := [] |}
                    {| network := [];
                       trace := [Fetch (transcript_request "key" "abc123")] |}
                    (transcript_body "abc123" "processing" EmptyString)
                    eq_refl)
             ltac:(discriminate)).
  - exact (proj1 (proj1 (proj2 (transcript_route_renders "abc123" an_env))
                    (fixed_sdk (transcript_body "abc123" "completed"
                                  "hello world"))
                    {| network := []; trace := [] |}
                    {| network := []; trace := [] |}
                    (transcript_body "abc123" "completed" "hello world")
                    eq_refl ltac:(discriminate))
             eq_refl).
Defined.

Lemma string_app_cons (x : ascii) (a b : string) :
  String x a ++ b = String x (a ++ b).
Proof. reflexivity. Qed.

Lemma string_app_assoc (a b c : string) : (a ++ b) ++ c = a ++ (b ++ c).
Proof.
  induction a as [|x a' IH]; [reflexivity|].
  rewrite !string_app_cons. by f_equal.
Qed.

Lemma string_app_nil_r (a : string) : a ++ EmptyString = a.
Proof.
  induction a as [|x a' IH]; [reflexivity|].
  rewrite string_app_cons. by f_equal.
Qed.

Lemma plain_not_slash (c : ascii) :
  plain_char c = true -> Ascii.eqb c "/" = false.
Proof.
  intros H. destruct (Ascii.eqb_spec c "/") as [->|]; [|reflexivity].
  vm_compute in H. discriminate.
Qed.

Lemma plain_is_path_char (s : string) :
  string_forall plain_char s = true -> string_forall path_char s = true.
Proof.
  induction s as [|c s IH]; simpl; [reflexivity|].
  intros H. apply andb_true_iff in H as [Hc Hs].
  rewrite IH by assumption. unfold path_char. by rewrite Hc.
Qed.

Lemma string_forall_app (p : ascii -> bool) (a b : string) :
  string_forall p (a ++ b) = string_forall p a && string_forall p b.
Proof.
  induction a as [|x a' IH]; [reflexivity|].
  rewrite string_app_cons. cbn [string_forall].
  by rewrite IH, andb_assoc.
Qed.

(** A run of plain characters only fills the buffer. *)
Lemma path_state_plain (s : string) :
  forall (rest buffer : string) (path : list string),
    string_forall plain_char s = true ->
    path_state (s ++ rest) buffer path = path_state rest (buffer ++ s) path.
Proof.
  induction s as [|c s IH]; intros rest buffer path H.
  - by rewrite string_app_nil_r.
  - simpl in H. apply andb_true_iff in H as [Hc Hs].
    rewrite string_app_cons. cbn [path_state].
    rewrite (plain_not_slash c Hc), IH by assumption.
    by rewrite string_app_assoc.
Qed.

Lemma plain_not_dots (s : string) :
  string_forall plain_char s = true ->
  String.eqb s ".." = false /\ String.eqb s "." = false.
Proof.
  intros H. split.
  - destruct (String.eqb_spec s "..") as [->|]; [|reflexivity].
    vm_compute in H. discriminate.
  - destruct (String.eqb_spec s ".") as [->|]; [|reflexivity].
    vm_compute in H. discriminate.
Qed.

(** The URL parser leaves [/transcript/{id}] as it is when the id is made of
    ASCII letters, digits, [-] and [_]. *)
Lemma transcript_pathname (s base : string) :
  string_forall plain_char s = true ->
  URL_pathname {| url_reference := "/transcript/" ++ s; url_base := base |}
    = Some ("/transcript/" ++ s).
Proof.
  intros Hs.
  assert (string_forall path_char ("transcript/" ++ s) = true) as Hchars.
  { change ("transcript/" ++ s) with ("transcript" ++ String "/" s).
    rewrite string_forall_app. cbn [string_forall].
    by rewrite (plain_is_path_char s Hs). }
  assert (path_state ("transcript/" ++ s) EmptyString []
          = ["transcript"; s]) as Hpath.
  { change ("transcript/" ++ s) with ("transcript" ++ String "/" s).
    rewrite path_state_plain by reflexivity.
    cbn [path_state]. change (Ascii.eqb "/" "/") with true. cbn match.
    rewrite <- (string_app_nil_r s) at 1.
    rewrite path_state_plain by assumption.
    cbn [path_state]. unfold close_last.
    change (EmptyString ++ s) with s.
    by destruct (plain_not_dots s Hs) as [-> ->]. }
  unfold URL_pathname.
  change (url_reference {| url_reference := "/transcript/" ++ s;
                           url_base := base |})
    with (String "/" ("transcript/" ++ s)).
  cbn match.
  change ("transcript/" ++ s) with (String "t" ("ranscript/" ++ s)) at 1.
  cbn match. change (Ascii.eqb "t" "/") with false. cbn match.
  rewrite Hchars, Hpath. unfold serialize_path. cbn [fold_right].
  by rewrite string_app_nil_r.
Qed.

(** The claim C7 fails as stated: for the transcript id [../x] both remote
    calls succeed and the handler answers 303, but the path of the location is
    [/x], not [/transcript/../x]. *)
Lemma dot_segment_id_leaves_transcript_path :
  ~ (exists r : HttpResponse,
        fst (Worker.upload_file upload_post an_env
               {| network := [upload_reply "https://cdn.assemblyai.com/upload/1";
                              transcript_reply "../x" "queued" EmptyString];
                  trace := [] |})
          = Returned (IsResponse r)
        /\ http_status r = 303
        /\ target_path r = Some "/transcript/../x").
Proof.
  intros (r & Hrun & _ & Hpath).
  vm_compute in Hrun. inversion Hrun; subst r.
  vm_compute in Hpath. discriminate.
Qed.

(** The tail of [POST /upload-file], after the transcript is created. *)
Lemma redirect_to_transcript (base : string) (t : json) (w : World) :
  is_object t = true ->
  (id <- get t "id";;
   path <- template id;;
   redirect <- Response_redirect
                 {| url_reference := "/transcript/" ++ path;
                    url_base := base |} 303;;
   ret (IsResponse redirect)) w =
    match own t "id" with
    | None => (Returned (IsResponse (see_other "/transcript/undefined" base)), w)
    | Some x =>
        match ToString x with
        | Some s =>
            (Returned (IsResponse (see_other ("/transcript/" ++ s) base)), w)
        | None => (Raised (TypeError NoPrimitiveValue), w)
        end
    end.
Proof.
  intros Hobj. unfold bind at 1. rewrite get_object by assumption.
  destruct (own t "id") as [x|]; [|reflexivity].
  unfold bind at 1, template, string_of.
  destruct (ToString x); reflexivity.
Qed.

(** C7 (amended): when [uploadFile] on the [file] field of the form and then
    [createTranscript] on the returned upload URL both succeed, and the [id]
    of the returned transcript has a string conversion, [POST /upload-file]
    answers 303 with, as location, the reference [/transcript/{id}] resolved
    against the URL of the request; the path of that location is
    [/transcript/{id}] when the id is made of ASCII letters, digits, [-] and
    [_]. When the [id] has no string conversion the handler raises the
    [TypeError] of the conversion. *)
Theorem upload_route_redirects (request : IRequest) (env : Env)
  (entries : list (string * FormDataEntryValue))
  (w w1 w2 : World) (uploadUrl : value) (t : json) :
  req_formData request = inr entries ->
  uploadFile (ASSEMBLYAI_API_KEY env) (FormData_get entries "file") w
    = (Returned uploadUrl, w1) ->
  createTranscript (ASSEMBLYAI_API_KEY env)
    {| audio_url := uploadUrl; webhook_url := undefined |} w1
    = (Returned t, w2) ->
  (forall (x : json) (id : string),
      own t "id" = Some x ->
      ToString x = Some id ->
      Worker.upload_file request env w =
        (Returned
           (IsResponse
              {| http_status := 303;
                 http_headers :=
                   HttpHeaders_init
                     [("Location",
                       HHref {| url_reference := "/transcript/" ++ id;
                                url_base := req_url request |})];
                 http_body := None |}),
         w2))
  /\ (forall x : json,
        own t "id" = Some x ->
        ToString x = None ->
        Worker.upload_file request env w
          = (Raised (TypeError NoPrimitiveValue), w2))
  /\ (forall id : string,
        string_forall plain_char id = true ->
        ToString (JStr id) = Some id
        /\ target_path
             {| http_status := 303;
                http_headers :=
                  HttpHeaders_init
                    [("Location",
                      HHref {| url_reference := "/transcript/" ++ id;
                               url_base := req_url request |})];
                http_body := None |}
           = Some ("/transcript/" ++ id)).
Proof.
  intros Hform Hup Hcreate.
  destruct (createTranscript_returns _ _ _ _ _ Hcreate) as [Hobj _].
  assert (Worker.upload_file request env w =
          match own t "id" with
          | None =>
              (Returned (IsResponse (see_other "/transcript/undefined"
                                       (req_url request))), w2)
          | Some x =>
              match ToString x with
              | Some s =>
                  (Returned (IsResponse (see_other ("/transcript/" ++ s)
                                           (req_url request))), w2)
              | None => (Raised (TypeError NoPrimitiveValue), w2)
              end
          end) as Hrun.
  { unfold Worker.upload_file, bind at 1, formData. rewrite Hform.
    unfold ret at 1. unfold bind at 1. rewrite Hup.
    unfold bind at 1. rewrite Hcreate.
    by apply redirect_to_transcript. }
  split; [|split].
  - intros x id Hx Hid. by rewrite Hrun, Hx, Hid.
  - intros x Hx Hid. by rewrite Hrun, Hx, Hid.
  - intros id Hid. split; [reflexivity|].
    unfold target_path. cbn. by apply transcript_pathname.
Qed.

Lemma upload_route_redirects_witness :
  Worker.upload_file upload_post an_env
    {| network := [upload_reply "https://cdn.assemblyai.com/upload/1";
                   transcript_reply "abc123" "queued" EmptyString];
       trace := [] |} =
    (Returned
       (IsResponse
          {| http_status := 303;
             http_headers :=
               {["location" :=
                   HHref {| url_reference := "/transcript/abc123";
                            url_base := "https://worker.example/upload-file" |}]};
             http_body := None |}),
     {| network := [];
        trace :=
          [Fetch (upload_request "key" a_file);
           Fetch (create_request "key"
                    {| audio_url :=
                         Some (JStr "https://cdn.assemblyai.com/upload/1");
                       webhook_url := undefined |})] |})
  /\ target_path
       {| http_status := 303;
          http_headers :=
            {["location" :=
                HHref {| url_reference := "/transcript/abc123";
                         url_base := "https://worker.example/upload-file" |}]};
          http_body := None |}
     = Some "/transcript/abc123".
Proof.
  pose proof (upload_route_redirects upload_post an_env
                [("file", EntryFile a_file)]
                {| network := [upload_reply "https://cdn.assemblyai.com/upload/1";
                               transcript_reply "abc123" "queued" EmptyString];
                   trace := [] |}
                {| network := [transcript_reply "abc123" "queued" EmptyString];
                   trace := [Fetch (upload_request "key" a_file)] |}
                {| network := [];
                   trace :=
                     [Fetch (upload_request "key" a_file);
                      Fetch (create_request "key"
                               {| audio_url :=
                                    Some (JStr "https://cdn.assemblyai.com/upload/1");
                                  webhook_url := undefined |})] |}
                (Some (JStr "https://cdn.assemblyai.com/upload/1"))
                (transcript_body "abc123" "queued" EmptyString)
                eq_refl eq_refl eq_refl) as (Hok & _ & Hpath).
  split.
  - exact (Hok (JStr "abc123") "abc123" eq_refl eq_refl).
  - exact (proj2 (Hpath "abc123" eq_refl)).
Defined.

(** *** The top-level handler *)

Lemma then_catch {A} (m : M A) (f : A -> HttpResponse)
  (h : exn -> HttpResponse) (w : World) :
  catch (then_ m f) h w =
    match m w with
    | (Returned a, w') => (Returned (f a), w')
    | (Raised e, w') => (Returned (h e), w')
    | (Awaiting, w') => (Awaiting, w')
    end.
Proof.
  unfold catch, then_, bind, ret. destruct (m w) as [[a|e|] w']; reflexivity.
Qed.

(** C9: the top-level [fetch] of the worker turns any error raised by routing
    or by a handler into the generic error response, serialises as a JSON
    response a result that is not a response, and passes a response through
    unchanged. *)
Theorem fetch_single_fallback (req : IRequest) (env : Env) (w w' : World) :
  (forall e : exn,
      Worker.handle req env w = (Raised e, w') ->
      Worker.fetch req env w = (Returned (itty.error e), w'))
  /\ (forall v : value,
        Worker.handle req env w = (Returned (IsValue v), w') ->
        Worker.fetch req env w = (Returned (itty.json (IsValue v)), w'))
  /\ (forall r : HttpResponse,
        Worker.handle req env w = (Returned (IsResponse r), w') ->
        Worker.fetch req env w = (Returned r, w'))
  /\ (forall e e' : exn,
        itty.error e = itty.error e' /\ http_status (itty.error e) = 500)
  /\ (forall x : json,
        http_body (itty.json (IsValue (Some x))) = Some (BodyJSON x)
        /\ HttpHeaders_get (http_headers (itty.json (IsValue (Some x))))
             "Content-Type"
           = Some (HString "application/json; charset=utf-8")).
Proof.
  unfold Worker.fetch. rewrite then_catch.
  split; [|split; [|split; [|split]]].
  - by intros e ->.
  - by intros v ->.
  - by intros r ->.
  - intros e e'. by split.
  - intros x. by split.
Qed.

Lemma fetch_single_fallback_witness :
  Worker.fetch (get_request "https://worker.example/transcript/unknown-id"
                  "/transcript/unknown-id") an_env
    {| network := [error_reply 404 "Not Found" "transcript not found"];
       trace := [] |} =
    (Returned {| http_status := 500; http_headers := ∅; http_body := None |},
     {| network := [];
        trace := [Fetch (transcript_request "key" "unknown-id")] |}).
Proof.
  exact (proj1 (fetch_single_fallback
                  (get_request "https://worker.example/transcript/unknown-id"
                     "/transcript/unknown-id") an_env
                  {| network := [error_reply 404 "Not Found"
                                   "transcript not found"];
                     trace := [] |}
                  {| network := [];
                     trace := [Fetch (transcript_request "key" "unknown-id")] |})
           (Error "transcript not found") eq_refl).
Defined.

(** * Further properties of the client *)

Lemma checked_not_json (a : Reply) :
  body_json a = None -> checked a = Raised SyntaxError.
Proof. unfold checked. by intros ->. Qed.

Lemma checked_primitive (a : Reply) (v : json) :
  body_json a = Some v -> is_object v = false ->
  checked a = Raised (TypeError InOperandNotObject).
Proof. unfold checked. by intros -> ->. Qed.

Lemma checked_returned (a : Reply) (t : json) :
  checked a = Returned t ->
  body_json a = Some t /\ is_object t = true /\ own t "error" = None.
Proof.
  unfold checked. destruct (body_json a) as [v|]; [|discriminate].
  destruct (is_object v) eqn:Hobj; [|discriminate].
  destruct (own v "error") eqn:Herr; [discriminate|].
  intros H. inversion H; subst. by repeat split.
Qed.

(** X1: whatever the reply is (a success, an error object, text that is not
    JSON, any status), [uploadFile], [createTranscript], [getTranscript] and
    [getSubtitles] send exactly one request and consume exactly one reply:
    nothing is retried. *)
Theorem one_request_per_call (apiKey id : string) (f : File)
  (params : CreateTranscriptParams) (fmt : subtitleFormat)
  (a : Reply) (rest : list Reply) (tr : list event) :
  snd (uploadFile apiKey (Some (EntryFile f))
         {| network := a :: rest; trace := tr |})
    = {| network := rest; trace := tr ++ [Fetch (upload_request apiKey f)] |}
  /\ snd (createTranscript apiKey params
            {| network := a :: rest; trace := tr |})
     = {| network := rest;
          trace := tr ++ [Fetch (create_request apiKey params)] |}
  /\ snd (getTranscript apiKey id {| network := a :: rest; trace := tr |})
     = {| network := rest;
          trace := tr ++ [Fetch (transcript_request apiKey id)] |}
  /\ snd (getSubtitles apiKey id fmt {| network := a :: rest; trace := tr |})
     = {| network := rest;
          trace := tr ++ [Fetch (subtitles_request apiKey id fmt)] |}.
Proof.
  rewrite uploadFile_run, createTranscript_run, getTranscript_run,
    getSubtitles_run.
  by repeat split.
Qed.

Lemma carries_key_single (apiKey : string) (rq : RequestInit) :
  In ("authorization", apiKey) (rq_headers rq) ->
  Forall (carries_key apiKey) [Fetch rq].
Proof. intros H. by repeat constructor. Qed.

(** X2: on every world and for every argument, [uploadFile],
    [createTranscript], [getTranscript] and [getSubtitles] only append to the
    trace, and every request they append carries the API key in its
    [authorization] header. *)
Theorem requests_carry_the_key (apiKey id : string)
  (file : option FormDataEntryValue) (params : CreateTranscriptParams)
  (fmt : subtitleFormat) (w : World) :
  (exists ext, trace (snd (uploadFile apiKey file w)) = (trace w ++ ext)%list
               /\ Forall (carries_key apiKey) ext)
  /\ (exists ext, trace (snd (createTranscript apiKey params w))
                  = (trace w ++ ext)%list
                  /\ Forall (carries_key apiKey) ext)
  /\ (exists ext, trace (snd (getTranscript apiKey id w))
                  = (trace w ++ ext)%list
                  /\ Forall (carries_key apiKey) ext)
  /\ (exists ext, trace (snd (getSubtitles apiKey id fmt w))
                  = (trace w ++ ext)%list
                  /\ Forall (carries_key apiKey) ext).
Proof.
  destruct w as [net tr]. repeat split.
  - destruct file as [[f|s]|].
    + exists [Fetch (upload_request apiKey f)]. split.
      * destruct net as [|a rest]; [reflexivity|].
        by rewrite uploadFile_run.
      * apply carries_key_single. by left.
    + exists []. split; [simpl; by rewrite app_nil_r|constructor].
    + exists []. split; [simpl; by rewrite app_nil_r|constructor].
  - exists [Fetch (create_request apiKey params)]. split.
    + destruct net as [|a rest]; [reflexivity|].
      by rewrite createTranscript_run.
    + apply carries_key_single. by left.
  - exists [Fetch (transcript_request apiKey id)]. split.
    + destruct net as [|a rest]; [reflexivity|].
      by rewrite getTranscript_run.
    + apply carries_key_single. by left.
  - exists [Fetch (subtitles_request apiKey id fmt)]. split.
    + destruct net as [|a rest]; [reflexivity|].
      by rewrite getSubtitles_run.
    + apply carries_key_single. by left.
Qed.

Lemma poll_trace (apiKey id : string) (fuel : nat) :
  forall w : World,
    exists ext,
      trace (snd (poll fuel apiKey
                    ("https://api.assemblyai.com/v2/transcript/" ++ id) w))
        = (trace w ++ ext)%list
      /\ Forall (fun ev => ev = Fetch (transcript_request apiKey id)
                           \/ ev = SetTimeout 3000) ext.
Proof.
  induction fuel as [|fuel IH]; intros [net tr].
  - exists []. split; [simpl; by rewrite app_nil_r|constructor].
  - rewrite poll_S. destruct net as [|a rest].
    + rewrite poll_once_starved.
      exists [Fetch (transcript_request apiKey id)]. split; [reflexivity|].
      repeat constructor.
    + rewrite poll_once_run.
      assert (Forall (fun ev => ev = Fetch (transcript_request apiKey id)
                                \/ ev = SetTimeout 3000)
                (Fetch (transcript_request apiKey id) :: naps a)) as Hturn.
      { constructor; [by left|]. unfold naps.
        destruct (checked a) as [t| |]; try constructor.
        destruct (waits t); [|constructor].
        constructor; [by right|constructor]. }
      destruct (checked a) as [t|e|] eqn:Hc.
      * destruct (negb (waits t) && completed t).
        -- eexists. split; [reflexivity|assumption].
        -- destruct (IH {| network := rest;
                           trace := tr ++ Fetch (transcript_request apiKey id)
                                    :: naps a |})
             as (ext & Htr & Hext).
           exists ((Fetch (transcript_request apiKey id) :: naps a) ++ ext)%list.
           split.
           ++ rewrite Htr. simpl. by rewrite <- app_assoc.
           ++ by apply Forall_app.
      * eexists. split; [reflexivity|assumption].
      * eexists. split; [reflexivity|assumption].
Qed.

(** X3: on every world, [waitForTranscript] only appends to the trace, and
    what it appends is nothing but the [GET] of the transcript, with the API
    key, and timers of 3000 ms: it never posts, never asks for another
    resource and never waits another delay. *)
Theorem waitForTranscript_only_polls (apiKey id : string) (w : World) :
  exists ext,
    trace (snd (waitForTranscript apiKey id w)) = (trace w ++ ext)%list
    /\ Forall (fun ev => ev = Fetch {| rq_url := baseUrl ++ "/transcript/" ++ id;
                                       rq_method := "GET";
                                       rq_headers := [("authorization", apiKey)];
                                       rq_body := None |}
                         \/ ev = SetTimeout 3000) ext.
Proof. rewrite waitForTranscript_unfold. apply poll_trace. Qed.

(** X5: when the body of the reply is not JSON, [uploadFile],
    [createTranscript] and [getTranscript] raise the [SyntaxError] of
    [response.json()]; when it is JSON but a primitive ([null], a boolean, a
    number, a string), they raise the [TypeError] of the [in] operator. In
    neither case is an [Error] with a message of the service raised. *)
Theorem malformed_body_raises (apiKey id : string) (f : File)
  (params : CreateTranscriptParams) (a : Reply) (rest : list Reply)
  (tr : list event) :
  (body_json a = None ->
   fst (uploadFile apiKey (Some (EntryFile f))
          {| network := a :: rest; trace := tr |}) = Raised SyntaxError
   /\ fst (createTranscript apiKey params
             {| network := a :: rest; trace := tr |}) = Raised SyntaxError
   /\ fst (getTranscript apiKey id
             {| network := a :: rest; trace := tr |}) = Raised SyntaxError)
  /\ (forall v : json,
        body_json a = Some v ->
        is_object v = false ->
        fst (uploadFile apiKey (Some (EntryFile f))
               {| network := a :: rest; trace := tr |})
          = Raised (TypeError InOperandNotObject)
        /\ fst (createTranscript apiKey params
                  {| network := a :: rest; trace := tr |})
             = Raised (TypeError InOperandNotObject)
        /\ fst (getTranscript apiKey id
                  {| network := a :: rest; trace := tr |})
             = Raised (TypeError InOperandNotObject)).
Proof.
  rewrite uploadFile_run, createTranscript_run, getTranscript_run. simpl.
  split.
  - intros Hj. by rewrite (checked_not_json a Hj).
  - intros v Hj Hobj. by rewrite (checked_primitive a v Hj Hobj).
Qed.

Lemma malformed_body_raises_witness :
  fst (getTranscript "key" "abc123"
         {| network := [html_reply 502 "Bad Gateway" "<h1>Bad Gateway</h1>"];
            trace := [] |}) = Raised SyntaxError
  /\ fst (getTranscript "key" "abc123"
            {| network := [null_reply 200 "OK"]; trace := [] |})
       = Raised (TypeError InOperandNotObject).
Proof.
  split.
  - exact (proj2 (proj2 (proj1 (malformed_body_raises "key" "abc123" a_file
                                  {| audio_url := undefined;
                                     webhook_url := undefined |}
                                  (html_reply 502 "Bad Gateway"
                                     "<h1>Bad Gateway</h1>") [] [])
                           eq_refl))).
  - exact (proj2 (proj2 (proj2 (malformed_body_raises "key" "abc123" a_file
                                  {| audio_url := undefined;
                                     webhook_url := undefined |}
                                  (null_reply 200 "OK") [] [])
                           JNull eq_refl eq_refl))).
Defined.

(** X6: when the status is not 200 and the reply has no [content-type]
    header at all, [getSubtitles] raises the status-code error; when the
    content type is JSON but the body is not JSON, it raises the
    [SyntaxError] of [response.json()], and when the body is a JSON primitive,
    the [TypeError] of the [in] operator. *)
Theorem getSubtitles_not_200_edges (apiKey id : string) (fmt : subtitleFormat)
  (a : Reply) (rest : list Reply) (tr : list event) :
  status a <> 200 ->
  (Headers_get (headers a) "content-type" = None ->
   fst (getSubtitles apiKey id fmt {| network := a :: rest; trace := tr |})
     = Raised (Error ("Get Subtitle request returned status "
                      ++ pretty (status a) ++ " " ++ statusText a)))
  /\ (is_json_content a = true ->
      body_json a = None ->
      fst (getSubtitles apiKey id fmt {| network := a :: rest; trace := tr |})
        = Raised SyntaxError)
  /\ (forall v : json,
        is_json_content a = true ->
        body_json a = Some v ->
        is_object v = false ->
        fst (getSubtitles apiKey id fmt
               {| network := a :: rest; trace := tr |})
          = Raised (TypeError InOperandNotObject)).
Proof.
  intros Hst. rewrite getSubtitles_run. simpl.
  rewrite bool_decide_eq_true_2 by assumption.
  split; [|split].
  - intros Hct. unfold is_json_content. by rewrite Hct.
  - intros Hct Hj. by rewrite Hct, (checked_not_json a Hj).
  - intros v Hct Hj Hobj. by rewrite Hct, (checked_primitive a v Hj Hobj).
Qed.

Lemma getSubtitles_not_200_edges_witness :
  fst (getSubtitles "key" "abc123" srt
         {| network := [{| status := 503;
                           statusText := "Service Unavailable";
                           headers := ∅;
                           body_text := EmptyString;
                           body_json := None |}];
            trace := [] |})
    = Raised (Error "Get Subtitle request returned status 503 Service Unavailable")
  /\ fst (getSubtitles "key" "abc123" vtt
            {| network := [null_reply 500 "Internal Server Error"];
               trace := [] |})
       = Raised (TypeError InOperandNotObject).
Proof.
  split.
  - exact (proj1 (getSubtitles_not_200_edges "key" "abc123" srt
                    {| status := 503;
                       statusText := "Service Unavailable";
                       headers := ∅;
                       body_text := EmptyString;
                       body_json := None |} [] [] ltac:(discriminate))
             eq_refl).
  - exact (proj2 (proj2 (getSubtitles_not_200_edges "key" "abc123" vtt
                           (null_reply 500 "Internal Server Error") [] []
                           ltac:(discriminate)))
             JNull eq_refl eq_refl eq_refl).
Defined.

(** * Further properties of the polling loop *)

Lemma requests_app (tr1 tr2 : list event) :
  requests (tr1 ++ tr2) = (requests tr1 ++ requests tr2)%list.
Proof. unfold requests. apply flat_map_app. Qed.

Lemma requests_polled (rq : RequestInit) (pre : list Reply) :
  requests (polled rq pre) = repeat rq (List.length pre).
Proof.
  induction pre as [|a pre IH]; [reflexivity|].
  unfold polled in *. simpl. rewrite requests_app, IH.
  unfold naps. destruct (checked a) as [t| |]; try reflexivity.
  destruct (waits t); reflexivity.
Qed.

(** X7: the loop of [waitForTranscript] has no bound on its turns: however
    many replies come whose body passes the check with a status other than
    [completed], it polls every one of them with the same request, asks once
    more, and is still suspended. *)
Theorem waitForTranscript_unbounded (apiKey id : string)
  (pre : list Reply) :
  forallb pending pre = true ->
  fst (waitForTranscript apiKey id {| network := pre; trace := [] |})
    = Awaiting
  /\ network (snd (waitForTranscript apiKey id
                     {| network := pre; trace := [] |})) = []
  /\ requests (trace (snd (waitForTranscript apiKey id
                             {| network := pre; trace := [] |})))
     = repeat (transcript_request apiKey id) (S (List.length pre)).
Proof.
  intros Hpre. rewrite waitForTranscript_pending by assumption. simpl.
  repeat split.
  rewrite requests_app, requests_polled. simpl.
  by rewrite repeat_cons.
Qed.

Lemma waitForTranscript_unbounded_witness :
  fst (waitForTranscript "key" "abc123"
         {| network := [transcript_reply "abc123" "queued" EmptyString;
                        transcript_reply "abc123" "error" EmptyString;
                        transcript_reply "abc123" "processing" EmptyString];
            trace := [] |}) = Awaiting.
Proof.
  exact (proj1 (waitForTranscript_unbounded "key" "abc123"
                  [transcript_reply "abc123" "queued" EmptyString;
                   transcript_reply "abc123" "error" EmptyString;
                   transcript_reply "abc123" "processing" EmptyString]
                  eq_refl)).
Defined.

(** X8: once the replies that keep the loop going are polled through,
    [waitForTranscript] settles as [getTranscript] does on the next reply:
    the same result, the same request, the same reply consumed. *)
Theorem waitForTranscript_settles_as_getTranscript (apiKey id : string)
  (pre : list Reply) (a : Reply) (post : list Reply) (tr : list event) :
  forallb pending pre = true ->
  pending a = false ->
  waitForTranscript apiKey id {| network := pre ++ a :: post; trace := tr |}
  = getTranscript apiKey id
      {| network := a :: post;
         trace := tr ++ polled (transcript_request apiKey id) pre |}.
Proof.
  intros Hpre Ha. rewrite waitForTranscript_settles by assumption.
  rewrite getTranscript_run. unfold answered. by rewrite app_assoc.
Qed.

Lemma waitForTranscript_settles_as_getTranscript_witness :
  waitForTranscript "key" "abc123"
    {| network := [transcript_reply "abc123" "processing" EmptyString;
                   error_reply 500 "Internal Server Error" "upstream failure"];
       trace := [] |}
  = getTranscript "key" "abc123"
      {| network := [error_reply 500 "Internal Server Error"
                       "upstream failure"];
         trace := [Fetch (transcript_request "key" "abc123");
                   SetTimeout 3000] |}.
Proof.
  exact (waitForTranscript_settles_as_getTranscript "key" "abc123"
           [transcript_reply "abc123" "processing" EmptyString]
           (error_reply 500 "Internal Server Error" "upstream failure")
           [] [] eq_refl eq_refl).
Defined.

(** X9: a polled reply whose body is not JSON, or is a JSON primitive, ends
    the loop of [waitForTranscript] with the [SyntaxError] of
    [response.json()], or the [TypeError] of the [in] operator, and nothing
    is fetched after it. *)
Theorem waitForTranscript_malformed_body (apiKey id : string)
  (pre : list Reply) (a : Reply) (post : list Reply) (tr : list event) :
  forallb pending pre = true ->
  (body_json a = None ->
   waitForTranscript apiKey id {| network := pre ++ a :: post; trace := tr |}
   = (Raised SyntaxError,
      {| network := post;
         trace := tr ++ polled (transcript_request apiKey id) pre
                  ++ [Fetch (transcript_request apiKey id)] |}))
  /\ (forall v : json,
        body_json a = Some v ->
        is_object v = false ->
        waitForTranscript apiKey id
          {| network := pre ++ a :: post; trace := tr |}
        = (Raised (TypeError InOperandNotObject),
           {| network := post;
              trace := tr ++ polled (transcript_request apiKey id) pre
                       ++ [Fetch (transcript_request apiKey id)] |})).
Proof.
  intros Hpre. split.
  - intros Hj. pose proof (checked_not_json a Hj) as Hc.
    rewrite waitForTranscript_settles, Hc; [reflexivity|assumption|].
    unfold pending. by rewrite Hc.
  - intros v Hj Hobj. pose proof (checked_primitive a v Hj Hobj) as Hc.
    rewrite waitForTranscript_settles, Hc; [reflexivity|assumption|].
    unfold pending. by rewrite Hc.
Qed.

Lemma waitForTranscript_malformed_body_witness :
  waitForTranscript "key" "abc123"
    {| network := [transcript_reply "abc123" "queued" EmptyString;
                   html_reply 502 "Bad Gateway" "<h1>Bad Gateway</h1>";
                   transcript_reply "abc123" "completed" "hello world"];
       trace := [] |}
  = (Raised SyntaxError,
     {| network := [transcript_reply "abc123" "completed" "hello world"];
        trace := [Fetch (transcript_request "key" "abc123"); SetTimeout 3000;
                  Fetch (transcript_request "key" "abc123")] |}).
Proof.
  exact (proj1 (waitForTranscript_malformed_body "key" "abc123"
                  [transcript_reply "abc123" "queued" EmptyString]
                  (html_reply 502 "Bad Gateway" "<h1>Bad Gateway</h1>")
                  [transcript_reply "abc123" "completed" "hello world"] []
                  eq_refl)
           eq_refl).
Defined.

(** * Further properties of the routes *)

Lemma upload_file_form_rejected (request : IRequest) (env : Env) (w : World)
  (e : exn) :
  req_formData request = inl e ->
  Worker.upload_file request env w = (Raised e, w).
Proof.
  intros Hform. unfold Worker.upload_file, bind at 1, formData.
  by rewrite Hform.
Qed.

Lemma template_run (v : value) (w : World) :
  template v w =
    (match v with
     | None => Returned "undefined"
     | Some x =>
         match ToString x with
         | Some s => Returned s
         | None => Raised (TypeError NoPrimitiveValue)
         end
     end, w).
Proof.
  destruct v as [x|]; [|reflexivity].
  unfold template, string_of. by destruct (ToString x).
Qed.

(** The steps of [POST /upload-file] once the form is read. *)
Lemma upload_file_steps (request : IRequest) (env : Env)
  (entries : list (string * FormDataEntryValue)) (w : World) :
  req_formData request = inr entries ->
  Worker.upload_file request env w =
    match uploadFile (ASSEMBLYAI_API_KEY env) (FormData_get entries "file") w
    with
    | (Returned uploadUrl, w1) =>
        match createTranscript (ASSEMBLYAI_API_KEY env)
                {| audio_url := uploadUrl; webhook_url := undefined |} w1
        with
        | (Returned t, w2) =>
            match get t "id" w2 with
            | (Returned id, w3) =>
                match template id w3 with
                | (Returned path, w4) =>
                    (Returned (IsResponse
                                 (see_other ("/transcript/" ++ path)
                                    (req_url request))), w4)
                | (Raised e, w4) => (Raised e, w4)
                | (Awaiting, w4) => (Awaiting, w4)
                end
            | (Raised e, w3) => (Raised e, w3)
            | (Awaiting, w3) => (Awaiting, w3)
            end
        | (Raised e, w2) => (Raised e, w2)
        | (Awaiting, w2) => (Awaiting, w2)
        end
    | (Raised e, w1) => (Raised e, w1)
    | (Awaiting, w1) => (Awaiting, w1)
    end.
Proof.
  intros Hform. unfold Worker.upload_file, bind at 1, formData.
  rewrite Hform. unfold ret at 1. unfold bind at 1.
  destruct (uploadFile _ _ w) as [[u|e|] w1]; reflexivity.
Qed.

(** X10: when [uploadFile] raises, [POST /upload-file] raises the same error
    and has sent the upload request only: no transcript is created. *)
Theorem failed_upload_creates_no_transcript (request : IRequest) (env : Env)
  (entries : list (string * FormDataEntryValue)) (f : File)
  (a : Reply) (rest : list Reply) (tr : list event) (e : exn) :
  req_formData request = inr entries ->
  FormData_get entries "file" = Some (EntryFile f) ->
  fst (uploadFile (ASSEMBLYAI_API_KEY env) (Some (EntryFile f))
         {| network := a :: rest; trace := tr |}) = Raised e ->
  Worker.upload_file request env {| network := a :: rest; trace := tr |} =
    (Raised e,
     {| network := rest;
        trace := tr ++ [Fetch (upload_request (ASSEMBLYAI_API_KEY env) f)] |}).
Proof.
  intros Hform Hfile Hup.
  rewrite (upload_file_steps _ _ entries) by assumption. rewrite Hfile.
  rewrite uploadFile_run in *. simpl in Hup. by rewrite Hup.
Qed.

Lemma failed_upload_creates_no_transcript_witness :
  Worker.upload_file upload_post an_env
    {| network := [error_reply 401 "Unauthorized" "invalid api key";
                   transcript_reply "abc123" "queued" EmptyString];
       trace := [] |} =
    (Raised (Error "invalid api key"),
     {| network := [transcript_reply "abc123" "queued" EmptyString];
        trace := [Fetch (upload_request "key" a_file)] |}).
Proof.
  exact (failed_upload_creates_no_transcript upload_post an_env
           [("file", EntryFile a_file)] a_file
           (error_reply 401 "Unauthorized" "invalid api key")
           [transcript_reply "abc123" "queued" EmptyString] []
           (Error "invalid api key") eq_refl eq_refl eq_refl).
Defined.

Lemma sdk_upload_file_no_stream (sdk : string -> AssemblyAI)
  (request : IRequest) (env : Env)
  (entries : list (string * FormDataEntryValue)) (w : World) (e : exn) :
  req_formData request = inr entries ->
  stream (FormData_get entries "file") w = (Raised e, w) ->
  WorkerSdk.upload_file sdk request env w = (Raised e, w).
Proof.
  intros Hform Hstream. unfold WorkerSdk.upload_file, bind at 1, formData.
  rewrite Hform. unfold ret at 1. unfold bind at 1. by rewrite Hstream.
Qed.

(** X11: when the form cannot be read, or has no [file] field, or its [file]
    field is a string, [POST /upload-file] raises without sending any request
    and without consuming any reply, in both variants of the worker. *)
Theorem upload_without_file_sends_nothing (sdk : string -> AssemblyAI)
  (request : IRequest) (env : Env) (w : World) :
  (forall e : exn,
      req_formData request = inl e ->
      Worker.upload_file request env w = (Raised e, w)
      /\ WorkerSdk.upload_file sdk request env w = (Raised e, w))
  /\ (forall entries : list (string * FormDataEntryValue),
        req_formData request = inr entries ->
        FormData_get entries "file" = None ->
        Worker.upload_file request env w
          = (Raised (TypeError PropertyOfNullish), w)
        /\ WorkerSdk.upload_file sdk request env w
           = (Raised (TypeError PropertyOfNullish), w))
  /\ (forall (entries : list (string * FormDataEntryValue)) (s : string),
        req_formData request = inr entries ->
        FormData_get entries "file" = Some (EntryString s) ->
        Worker.upload_file request env w
          = (Raised (TypeError NotAFunction), w)
        /\ WorkerSdk.upload_file sdk request env w
           = (Raised (TypeError NotAFunction), w)).
Proof.
  assert (forall entries : list (string * FormDataEntryValue),
             req_formData request = inr entries ->
             FormData_get entries "file" = None ->
             Worker.upload_file request env w
             = (Raised (TypeError PropertyOfNullish), w)) as Hnone.
  { intros entries Hform Hfile.
    rewrite (upload_file_steps _ _ entries) by assumption.
    by rewrite Hfile. }
  split; [|split].
  - intros e Hform. split; [by apply upload_file_form_rejected|].
    unfold WorkerSdk.upload_file, bind at 1, formData. by rewrite Hform.
  - intros entries Hform Hfile. split; [by apply (Hnone entries)|].
    apply (sdk_upload_file_no_stream sdk _ _ entries); [assumption|].
    by rewrite Hfile.
  - intros entries s Hform Hfile. split.
    + rewrite (upload_file_steps _ _ entries) by assumption.
      by rewrite Hfile.
    + apply (sdk_upload_file_no_stream sdk _ _ entries); [assumption|].
      by rewrite Hfile.
Qed.

Lemma upload_without_file_sends_nothing_witness :
  Worker.upload_file fileless_post an_env
    {| network := [upload_reply "https://cdn.assemblyai.com/upload/1"];
       trace := [] |}
  = (Raised (TypeError PropertyOfNullish),
     {| network := [upload_reply "https://cdn.assemblyai.com/upload/1"];
        trace := [] |}).
Proof.
  exact (proj1 (proj1 (proj2 (upload_without_file_sends_nothing
                                (fixed_sdk JNull) fileless_post an_env
                                {| network :=
                                     [upload_reply
                                        "https://cdn.assemblyai.com/upload/1"];
                                   trace := [] |}))
                  [("title", EntryString "memo")] eq_refl eq_refl)).
Defined.

(** X12: when the reply to the upload is an object with neither [error] nor
    [upload_url], [uploadFile] returns [undefined] without raising, and
    [POST /upload-file] goes on to post the empty object [{}] to the
    transcript endpoint: [audio_url] is left out of the request. *)
Theorem missing_upload_url_posts_empty_object (request : IRequest) (env : Env)
  (entries : list (string * FormDataEntryValue)) (f : File)
  (a1 a2 : Reply) (rest : list Reply) (tr : list event) (v : json) :
  req_formData request = inr entries ->
  FormData_get entries "file" = Some (EntryFile f) ->
  body_json a1 = Some v ->
  is_object v = true ->
  own v "error" = None ->
  own v "upload_url" = None ->
  fst (uploadFile (ASSEMBLYAI_API_KEY env) (Some (EntryFile f))
         {| network := a1 :: a2 :: rest; trace := tr |}) = Returned undefined
  /\ snd (Worker.upload_file request env
            {| network := a1 :: a2 :: rest; trace := tr |}) =
       {| network := rest;
          trace :=
            tr ++ [Fetch (upload_request (ASSEMBLYAI_API_KEY env) f);
                   Fetch {| rq_url := baseUrl ++ "/transcript";
                            rq_method := "POST";
                            rq_headers :=
                              [("authorization", ASSEMBLYAI_API_KEY env);
                               ("Content-Type", "application/json")];
                            rq_body := Some (BodyJSON (JObj ∅)) |}] |}.
Proof.
  intros Hform Hfile Hj Hobj Herr Hurl.
  assert (checked a1 = Returned v) as Hc.
  { unfold checked. by rewrite Hj, Hobj, Herr. }
  split.
  - rewrite uploadFile_run. simpl. by rewrite Hc, <- Hurl.
  - rewrite (upload_file_steps _ _ entries) by assumption. rewrite Hfile.
    rewrite uploadFile_run, Hc. cbn [map_outcome]. rewrite Hurl.
    unfold answered at 1. rewrite createTranscript_run. unfold answered.
    destruct (checked a2) as [t|e|] eqn:Hc2; cbn [snd];
      try by rewrite <- app_assoc.
    apply checked_returned in Hc2 as (_ & Hobj2 & _).
    rewrite get_object, template_run by assumption.
    destruct (own t "id") as [x|]; [destruct (ToString x)|]; cbn [snd];
      by rewrite <- app_assoc.
Qed.

Lemma missing_upload_url_posts_empty_object_witness :
  snd (Worker.upload_file upload_post an_env
         {| network := [message_reply 200 "OK" "accepted";
                        error_reply 400 "Bad Request"
                          "audio_url is a required field"];
            trace := [] |}) =
    {| network := [];
       trace := [Fetch (upload_request "key" a_file);
                 Fetch {| rq_url := "https://api.assemblyai.com/v2/transcript";
                          rq_method := "POST";
                          rq_headers := [("authorization", "key");
                                         ("Content-Type", "application/json")];
                          rq_body := Some (BodyJSON (JObj ∅)) |}] |}.
Proof.
  exact (proj2 (missing_upload_url_posts_empty_object upload_post an_env
                  [("file", EntryFile a_file)] a_file
                  (message_reply 200 "OK" "accepted")
                  (error_reply 400 "Bad Request"
                     "audio_url is a required field") [] []
                  (JObj {["message" := JStr "accepted"]})
                  eq_refl eq_refl eq_refl eq_refl eq_refl eq_refl)).
Defined.

(** X13: when the transcript that [createTranscript] returned has no [id],
    [POST /upload-file] still answers 303, to the reference
    [/transcript/undefined]. *)
Theorem missing_id_redirects_to_undefined (request : IRequest) (env : Env)
  (entries : list (string * FormDataEntryValue))
  (w w1 w2 : World) (uploadUrl : value) (t : json) :
  req_formData request = inr entries ->
  uploadFile (ASSEMBLYAI_API_KEY env) (FormData_get entries "file") w
    = (Returned uploadUrl, w1) ->
  createTranscript (ASSEMBLYAI_API_KEY env)
    {| audio_url := uploadUrl; webhook_url := undefined |} w1
    = (Returned t, w2) ->
  own t "id" = None ->
  Worker.upload_file request env w =
    (Returned (IsResponse (see_other "/transcript/undefined"
                             (req_url request))), w2).
Proof.
  intros Hform Hup Hcreate Hid.
  destruct (createTranscript_returns _ _ _ _ _ Hcreate) as [Hobj _].
  rewrite (upload_file_steps _ _ entries) by assumption.
  rewrite Hup, Hcreate, get_object by assumption. by rewrite Hid.
Qed.

Lemma missing_id_redirects_to_undefined_witness :
  Worker.upload_file upload_post an_env
    {| network := [upload_reply "https://cdn.assemblyai.com/upload/1";
                   message_reply 200 "OK" "accepted"];
       trace := [] |} =
    (Returned (IsResponse (see_other "/transcript/undefined"
                             "https://worker.example/upload-file")),
     {| network := [];
        trace :=
          [Fetch (upload_request "key" a_file);
           Fetch (create_request "key"
                    {| audio_url :=
                         Some (JStr "https://cdn.assemblyai.com/upload/1");
                       webhook_url := undefined |})] |}).
Proof.
  exact (missing_id_redirects_to_undefined upload_post an_env
           [("file", EntryFile a_file)]
           {| network := [upload_reply "https://cdn.assemblyai.com/upload/1";
                          message_reply 200 "OK" "accepted"];
              trace := [] |}
           {| network := [message_reply 200 "OK" "accepted"];
              trace := [Fetch (upload_request "key" a_file)] |}
           {| network := [];
              trace :=
                [Fetch (upload_request "key" a_file);
                 Fetch (create_request "key"
                          {| audio_url :=
                               Some (JStr "https://cdn.assemblyai.com/upload/1");
                             webhook_url := undefined |})] |}
           (Some (JStr "https://cdn.assemblyai.com/upload/1"))
           (JObj {["message" := JStr "accepted"]})
           eq_refl eq_refl eq_refl eq_refl).
Defined.

(** X14: in the worker on the SDK, [POST /upload-file] hands the stream of
    the [file] field to [transcripts.submit]. When that returns a transcript
    whose [id] has a string conversion, it answers 303 with, as location, the
    reference [/transcript/{id}] resolved against the URL of the request,
    whose path is [/transcript/{id}] for an id made of ASCII letters, digits,
    [-] and [_]; when the [id] has no string conversion it raises the
    [TypeError] of the conversion; when [transcripts.submit] raises it raises
    the same error. *)
Theorem sdk_upload_route (sdk : string -> AssemblyAI)
  (request : IRequest) (env : Env)
  (entries : list (string * FormDataEntryValue)) (f : File)
  (w w' : World) :
  req_formData request = inr entries ->
  FormData_get entries "file" = Some (EntryFile f) ->
  (forall (t x : json) (id : string),
      transcripts_submit (sdk (ASSEMBLYAI_API_KEY env)) (BodyStream f) w
        = (Returned t, w') ->
      own t "id" = Some x ->
      ToString x = Some id ->
      WorkerSdk.upload_file sdk request env w =
        (Returned (IsResponse
                     (see_other ("/transcript/" ++ id) (req_url request))),
         w'))
  /\ (forall t x : json,
        transcripts_submit (sdk (ASSEMBLYAI_API_KEY env)) (BodyStream f) w
          = (Returned t, w') ->
        own t "id" = Some x ->
        ToString x = None ->
        WorkerSdk.upload_file sdk request env w
          = (Raised (TypeError NoPrimitiveValue), w'))
  /\ (forall e : exn,
        transcripts_submit (sdk (ASSEMBLYAI_API_KEY env)) (BodyStream f) w
          = (Raised e, w') ->
        WorkerSdk.upload_file sdk request env w = (Raised e, w'))
  /\ (forall id : string,
        string_forall plain_char id = true ->
        ToString (JStr id) = Some id
        /\ target_path (see_other ("/transcript/" ++ id) (req_url request))
           = Some ("/transcript/" ++ id)).
Proof.
  intros Hform Hfile.
  assert (forall t x : json,
             transcripts_submit (sdk (ASSEMBLYAI_API_KEY env)) (BodyStream f) w
               = (Returned t, w') ->
             own t "id" = Some x ->
             WorkerSdk.upload_file sdk request env w =
               match ToString x with
               | Some s =>
                   (Returned (IsResponse
                                (see_other ("/transcript/" ++ s)
                                   (req_url request))), w')
               | None => (Raised (TypeError NoPrimitiveValue), w')
               end) as Hrun.
  { intros t x Hsub Hx.
    assert (is_object t = true) as Hobj by (by destruct t).
    unfold WorkerSdk.upload_file, bind at 1, formData.
    rewrite Hform. unfold ret at 1. unfold bind at 1. rewrite Hfile.
    unfold stream, ret at 1. unfold bind at 1. rewrite Hsub.
    rewrite redirect_to_transcript by assumption. by rewrite Hx. }
  split; [|split; [|split]].
  - intros t x id Hsub Hx Hid. by rewrite (Hrun t x Hsub Hx), Hid.
  - intros t x Hsub Hx Hid. by rewrite (Hrun t x Hsub Hx), Hid.
  - intros e Hsub.
    unfold WorkerSdk.upload_file, bind at 1, formData.
    rewrite Hform. unfold ret at 1. unfold bind at 1. rewrite Hfile.
    unfold stream, ret at 1. unfold bind at 1. by rewrite Hsub.
  - intros id Hid. split; [reflexivity|].
    unfold target_path. cbn. by apply transcript_pathname.
Qed.

Lemma sdk_upload_route_witness :
  WorkerSdk.upload_file
    (fixed_sdk (transcript_body "abc123" "queued" EmptyString))
    upload_post an_env {| network := []; trace := [] |} =
    (Returned (IsResponse (see_other "/transcript/abc123"
                             "https://worker.example/upload-file")),
     {| network := []; trace := [] |})
  /\ target_path (see_other "/transcript/abc123"
                    "https://worker.example/upload-file")
     = Some "/transcript/abc123".
Proof.
  pose proof (sdk_upload_route
                (fixed_sdk (transcript_body "abc123" "queued" EmptyString))
                upload_post an_env [("file", EntryFile a_file)] a_file
                {| network := []; trace := [] |}
                {| network := []; trace := [] |} eq_refl eq_refl)
    as (Hok & _ & _ & Hpath).
  split.
  - exact (Hok (transcript_body "abc123" "queued" EmptyString)
             (JStr "abc123") "abc123" eq_refl eq_refl eq_refl).
  - exact (proj2 (Hpath "abc123" eq_refl)).
Defined.

Lemma match_transcript_id_not_root (pathname id : string) :
  match_transcript_id pathname = Some id -> pathname <> "/".
Proof. intros H ->. discriminate. Qed.

(** The route [GET /transcript/:id]. *)
Lemma handle_transcript (req : IRequest) (env : Env) (id : string) :
  req_method req = "GET" ->
  match_transcript_id (req_pathname req) = Some id ->
  Worker.handle req env = Worker.transcript_by_id id env.
Proof.
  intros Hm Hid. unfold Worker.handle. rewrite Hm, Hid.
  rewrite (bool_decide_eq_false_2 (req_pathname req = "/"))
    by by apply match_transcript_id_not_root with id.
  reflexivity.
Qed.

(** X16: when [getTranscript] raises on the reply of the service (an error
    object, a body that is not JSON), [GET /transcript/:id] is answered with
    the generic error response, after the one request for the transcript; no
    text and no status of a transcript is rendered. *)
Theorem transcript_route_error (req : IRequest) (env : Env) (id : string)
  (a : Reply) (rest : list Reply) (tr : list event) (e : exn) :
  req_method req = "GET" ->
  match_transcript_id (req_pathname req) = Some id ->
  fst (getTranscript (ASSEMBLYAI_API_KEY env) id
         {| network := a :: rest; trace := tr |}) = Raised e ->
  Worker.fetch req env {| network := a :: rest; trace := tr |} =
    (Returned (itty.error e),
     {| network := rest;
        trace := tr ++ [Fetch (transcript_request (ASSEMBLYAI_API_KEY env)
                                 id)] |}).
Proof.
  intros Hm Hid Hget. unfold Worker.fetch. rewrite then_catch.
  rewrite (handle_transcript req env id) by assumption.
  unfold Worker.transcript_by_id, bind at 1.
  rewrite getTranscript_run in *. simpl in Hget. by rewrite Hget.
Qed.

Lemma transcript_route_error_witness :
  Worker.fetch (get_request "https://worker.example/transcript/abc123"
                  "/transcript/abc123") an_env
    {| network := [html_reply 502 "Bad Gateway" "<h1>Bad Gateway</h1>"];
       trace := [] |} =
    (Returned {| http_status := 500; http_headers := ∅; http_body := None |},
     {| network := [];
        trace := [Fetch (transcript_request "key" "abc123")] |}).
Proof.
  exact (transcript_route_error
           (get_request "https://worker.example/transcript/abc123"
              "/transcript/abc123") an_env "abc123"
           (html_reply 502 "Bad Gateway" "<h1>Bad Gateway</h1>") [] []
           SyntaxError eq_refl eq_refl eq_refl).
Defined.

(** X17: [GET /] is answered with the upload form in both variants of the
    worker, without any request to the service and whatever the
    environment. *)
Theorem root_serves_the_form (sdk : string -> AssemblyAI)
  (req : IRequest) (env : Env) (w : World) :
  req_method req = "GET" ->
  req_pathname req = "/" ->
  Worker.fetch req env w = (Returned (itty.html upload_form), w)
  /\ WorkerSdk.fetch sdk req env w = (Returned (itty.html upload_form), w).
Proof.
  intros Hm Hp. unfold Worker.fetch, WorkerSdk.fetch. rewrite !then_catch.
  unfold Worker.handle, WorkerSdk.handle. rewrite Hm, Hp. by split.
Qed.

Lemma root_serves_the_form_witness :
  fst (Worker.fetch (get_request "https://worker.example/" "/")
         {| ASSEMBLYAI_API_KEY := EmptyString |}
         {| network := []; trace := [] |})
    = Returned (itty.html upload_form).
Proof.
  exact (f_equal fst
           (proj1 (root_serves_the_form (fixed_sdk JNull)
                     (get_request "https://worker.example/" "/")
                     {| ASSEMBLYAI_API_KEY := EmptyString |}
                     {| network := []; trace := [] |} eq_refl eq_refl))).
Defined.

(** X18: whatever the service replies, and also when it has not replied yet,
    [GET /transcript/:id] sends the one [GET] of the transcript and nothing
    else: viewing the page creates no job and sets no timer. *)
Theorem transcript_page_only_reads (id : string) (env : Env) (w : World) :
  trace (snd (Worker.transcript_by_id id env w))
  = (trace w ++ [Fetch {| rq_url := baseUrl ++ "/transcript/" ++ id;
                          rq_method := "GET";
                          rq_headers :=
                            [("authorization", ASSEMBLYAI_API_KEY env)];
                          rq_body := None |}])%list.
Proof.
  destruct w as [[|a rest] tr]; [reflexivity|].
  unfold Worker.transcript_by_id, bind at 1. rewrite getTranscript_run.
  destruct (checked a) as [t|e|] eqn:Hc; try reflexivity.
  apply checked_returned in Hc as (_ & Hobj & _).
  by rewrite (render_transcript "3") by by apply object_not_null.
Qed.

(** * Further edge cases *)

(** X19: a reply whose body is a JSON array passes the check of the [error]
    property: [createTranscript] and [getTranscript] return the array as the
    transcript, [uploadFile] returns [undefined], and [waitForTranscript]
    takes it for a transcript that is not completed, polling again at once. *)
Theorem array_body_is_accepted (apiKey id : string) (f : File)
  (params : CreateTranscriptParams) (a : Reply) (items : list json)
  (rest : list Reply) (tr : list event) :
  body_json a = Some (JArr items) ->
  fst (uploadFile apiKey (Some (EntryFile f))
         {| network := a :: rest; trace := tr |}) = Returned undefined
  /\ fst (createTranscript apiKey params
            {| network := a :: rest; trace := tr |}) = Returned (JArr items)
  /\ fst (getTranscript apiKey id {| network := a :: rest; trace := tr |})
     = Returned (JArr items)
  /\ waitForTranscript apiKey id {| network := a :: rest; trace := tr |}
     = waitForTranscript apiKey id
         {| network := rest;
            trace := tr ++ [Fetch (transcript_request apiKey id)] |}.
Proof.
  intros Hj.
  assert (checked a = Returned (JArr items)) as Hc.
  { unfold checked. by rewrite Hj. }
  rewrite uploadFile_run, createTranscript_run, getTranscript_run, Hc.
  repeat split.
  rewrite !waitForTranscript_unfold. simpl network.
  rewrite poll_S, poll_once_run. unfold naps. by rewrite Hc.
Qed.

Lemma array_body_is_accepted_witness :
  fst (getTranscript "key" "abc123"
         {| network := [array_reply ["error"; "status"]]; trace := [] |})
    = Returned (JArr [JStr "error"; JStr "status"]).
Proof.
  exact (proj1 (proj2 (proj2 (array_body_is_accepted "key" "abc123" a_file
                                {| audio_url := undefined;
                                   webhook_url := undefined |}
                                (array_reply ["error"; "status"])
                                [JStr "error"; JStr "status"] [] []
                                eq_refl)))).
Defined.




